(** * AutoPruner (paddleslim/prune/auto_pruner.py): encoding, range table,
      constructor and the propose / report loop.

    Python floats are IEEE 754 binary64: they are modelled by Rocq's primitive
    floats, whose operations are specified by [SpecFloat] through the axioms of
    [FloatAxioms].  Python integers are [Z].  Exceptions are values of
    [pyexn]; a pure computation returns a [result], a method of the object
    runs in the monad [M], which keeps the heap when an exception is raised,
    as Python does. *)

From Stdlib Require Import ZArith QArith Qabs Floats Lia List Bool.
From stdpp Require Import gmap strings.
Set Warnings "-inexact-float,-register-all".
Open Scope Z_scope.

(* ================================================================== *)
(** ** Python exceptions, results, values *)

Inductive pyexn : Type :=
| AssertionError
| NameError (name : string)
| AttributeError (attr : string)
| TypeError
| ValueError
| OverflowError
| ZeroDivisionError
| KeyError (key : string)
| ConnectionError.

Inductive result (A : Type) : Type :=
| Ok (a : A)
| Raise (e : pyexn).
Arguments Ok {A} a.
Arguments Raise {A} e.

Definition rbind {A B} (r : result A) (k : A -> result B) : result B :=
  match r with
  | Ok a => k a
  | Raise e => Raise e
  end.

Declare Scope result_scope.
Delimit Scope result_scope with result.
Notation "x <- c ;; k" := (rbind c (fun x => k))
  (at level 100, c at next level, right associativity) : result_scope.

(** A list comprehension [[f x for x in l]]: elements are evaluated from left
    to right and the first exception aborts the comprehension. *)
Fixpoint comprehension {A B} (f : A -> result B) (l : list A) : result (list B) :=
  match l with
  | [] => Ok []
  | x :: l' =>
      (y <- f x ;; ys <- comprehension f l' ;; Ok (y :: ys))%result
  end.

Definition py_assert (b : bool) : result unit :=
  if b then Ok tt else Raise AssertionError.

(** The Python values that reach this module: [None], integers, floats,
    strings and lists. *)
Inductive pyval : Type :=
| PyNone
| PyInt (z : Z)
| PyFloat (f : float)
| PyStr (s : string)
| PyList (l : list pyval).

(** [isinstance(x, list)] and [isinstance(x, float)]. *)
Definition isinstance_list (x : pyval) : bool :=
  match x with PyList _ => true | _ => false end.
Definition isinstance_float (x : pyval) : bool :=
  match x with PyFloat _ => true | _ => false end.

(** Truth value of an object in [if x:] and [x == None or x == ""]. *)
Definition py_truthy (x : pyval) : bool :=
  match x with
  | PyNone => false
  | PyInt z => negb (z =? 0)
  | PyFloat f => negb (PrimFloat.eqb f 0%float)
  | PyStr s => negb (String.eqb s "")
  | PyList l => match l with [] => false | _ => true end
  end.

(** A Python dictionary with string keys is the list of its items in
    insertion order, which is the order [keys()] iterates in; a key occurs
    once.  [dict_get d k] is [d[k]]. *)
Definition dict_keys {V : Type} (d : list (string * V)) : list string :=
  map fst d.

Fixpoint dict_get {V : Type} (d : list (string * V)) (k : string) : option V :=
  match d with
  | [] => None
  | (k', v) :: d' => if String.eqb k' k then Some v else dict_get d' k
  end.

(** The dictionary as a finite map, the order forgotten. *)
Definition dict_map {V : Type} (d : list (string * V)) : gmap string V :=
  list_to_map d.

(* ================================================================== *)
(** ** binary64 arithmetic as Python uses it *)

(** The exact value of a finite float, in units of [2^-1074] (the smallest
    positive binary64 number): every finite float is an integer number of
    such units. *)
Definition scaled_SF (x : spec_float) : Z :=
  match x with
  | S754_finite s m e => cond_Zopp s (Zpos m * 2 ^ (e + 1074))
  | _ => 0
  end.
Definition scaled (f : float) : Z := scaled_SF (Prim2SF f).

Definition unit_den : positive := Eval vm_compute in (2 ^ 1074)%positive.

(** The exact rational value of a finite float. *)
Definition F2Q (f : float) : Q := Qmake (scaled f) unit_den.

(** [float(z)] for an integer: the nearest float, ties to even. *)
Definition Z2F (z : Z) : float :=
  SF2Prim (binary_normalize prec emax z 0 false).

(** The conversion raises [OverflowError] when the integer is too large. *)
Definition py_float_of_int (z : Z) : result float :=
  let f := Z2F z in
  match Prim2SF f with
  | S754_infinity _ => Raise OverflowError
  | _ => Ok f
  end.

(** Neither NaN nor an infinity. *)
Definition float_finite (f : float) : bool :=
  match Prim2SF f with
  | S754_zero _ | S754_finite _ _ _ => true
  | _ => false
  end.

(** [int(f)] for a float: the integral part, rounding toward zero;
    [ValueError] on NaN and [OverflowError] on an infinity. *)
Definition trunc_SF (x : spec_float) : Z :=
  match x with
  | S754_finite s m e => cond_Zopp s (Z.shiftl (Zpos m) e)
  | _ => 0
  end.

Definition py_int (f : float) : result Z :=
  match Prim2SF f with
  | S754_nan => Raise ValueError
  | S754_infinity _ => Raise OverflowError
  | x => Ok (trunc_SF x)
  end.

(** [x / d] for a float divisor [d]. *)
Definition py_truediv (x : pyval) (d : float) : result float :=
  match x with
  | PyFloat f =>
      if PrimFloat.eqb d 0%float then Raise ZeroDivisionError
      else Ok (f / d)%float
  | PyInt z =>
      (f <- py_float_of_int z ;;
       if PrimFloat.eqb d 0%float then Raise ZeroDivisionError
       else Ok (f / d)%float)%result
  | _ => Raise TypeError
  end.

(** [1 - x]. *)
Definition py_rsub_one (x : pyval) : result pyval :=
  match x with
  | PyInt z => Ok (PyInt (1 - z))
  | PyFloat f => Ok (PyFloat (1 - f)%float)
  | _ => Raise TypeError
  end.

(** [a * x] for an integer [a]. *)
Definition py_mul_int (a : Z) (x : pyval) : result pyval :=
  match x with
  | PyInt z => Ok (PyInt (a * z))
  | PyFloat f => (af <- py_float_of_int a ;; Ok (PyFloat (af * f)%float))%result
  | _ => Raise TypeError
  end.

(** [a < x] for an integer [a]: Python compares an integer with a float
    exactly, without converting the integer. *)
Definition int_lt_float (a : Z) (f : float) : bool :=
  match Prim2SF f with
  | S754_nan => false
  | S754_infinity s => negb s
  | x => a * 2 ^ 1074 <? scaled_SF x
  end.

Definition py_lt_int (a : Z) (x : pyval) : result bool :=
  match x with
  | PyInt z => Ok (a <? z)
  | PyFloat f => Ok (int_lt_float a f)
  | _ => Raise TypeError
  end.

(* ================================================================== *)
(** ** Encoding: ratios and tokens *)

(** [_ratios2tokens]: [[int(ratio / 0.01) for ratio in ratios]].  Iterating
    over [None], a number or a non-empty string of characters fails with
    [TypeError]; the empty string yields the empty list. *)
Definition _ratios2tokens (ratios : pyval) : result (list Z) :=
  match ratios with
  | PyList l =>
      comprehension
        (fun ratio => (q <- py_truediv ratio 0.01%float ;; py_int q)%result) l
  | PyStr s => if String.eqb s "" then Ok [] else Raise TypeError
  | _ => Raise TypeError
  end.

(** [_tokens2ratios]: [[token * 0.01 for token in tokens]]. *)
Definition _tokens2ratios (tokens : list Z) : result (list float) :=
  comprehension
    (fun token => (f <- py_float_of_int token ;; Ok (f * 0.01)%float)%result)
    tokens.

(** [_get_range_table]. *)
Definition _get_range_table (min_ratios max_ratios : pyval)
  : result (list Z * list Z) :=
  (_ <- py_assert (isinstance_list min_ratios || isinstance_float min_ratios) ;;
   _ <- py_assert (isinstance_list max_ratios || isinstance_float max_ratios) ;;
   let min_ratios :=
     if isinstance_list min_ratios then min_ratios else PyList [min_ratios] in
   let max_ratios :=
     if isinstance_list max_ratios then max_ratios else PyList [max_ratios] in
   min_tokens <- _ratios2tokens min_ratios ;;
   max_tokens <- _ratios2tokens max_ratios ;;
   Ok (min_tokens, max_tokens))%result.

(** [_get_init_ratios]: the body is [pass], the call returns [None]. *)
Definition _get_init_ratios {Program : Type} (program : Program)
    (params : list string) (pruned_flops pruned_latency : pyval) : pyval :=
  PyNone.

(** The encoding the specification describes, [round(value / step)]:
    Python's [round], to the nearest integer, ties to the even one.  It is
    used only to compare with [_ratios2tokens]. *)
Definition round_SF (x : spec_float) : Z :=
  let n := scaled_SF x in
  let q := n / 2 ^ 1074 in
  let r := n mod 2 ^ 1074 in
  match 2 * r ?= 2 ^ 1074 with
  | Lt => q
  | Gt => q + 1
  | Eq => if Z.even q then q else q + 1
  end.

Definition spec_ratio_to_token (value step : float) : result Z :=
  match Prim2SF (value / step)%float with
  | S754_nan => Raise ValueError
  | S754_infinity _ => Raise OverflowError
  | x => Ok (round_SF x)
  end.

Definition spec_token_to_ratio (token : Z) (step : float) : float :=
  (Z2F token * step)%float.

(* ================================================================== *)
(** ** The collaborators outside this module *)

(** What [auto_pruner.py] imports and only calls: the program analysis
    [flops], the [Pruner], the controller classes and the [socket] module.
    [Pruner_prune program scope params ratios place only_graph param_backup]
    returns the pruned program together with the scope and the backup
    dictionary as the call leaves them ([param_backup] is [None] when the
    caller passes none). *)
Class Externals : Type := {
  Program : Type;
  Place : Type;
  Tensor : Type;
  flops : Program -> Z;
  Pruner_prune :
    Program -> gmap string Tensor -> list string -> list float -> Place ->
    bool -> option (list (string * Tensor)) ->
    Program * gmap string Tensor * option (list (string * Tensor));
  socket_gethostname : string;
  socket_gethostbyname : string -> string;
}.

(** [SAController(range_table, reduce_rate, init_temperature,
    max_try_number, init_tokens, constrain_func)]: the object keeps its
    arguments; [constrain_func] is the bound method [_constrain_func]. *)
Record SAController : Type := {
  sa_range_table : list Z * list Z;
  sa_reduce_rate : pyval;
  sa_init_temperature : pyval;
  sa_max_try_number : pyval;
  sa_init_tokens : list Z;
}.

(** [ControllerServer(controller, address, max_client_num, search_steps,
    key)], and whether [start()] was called. *)
Record ControllerServer : Type := {
  cs_controller : SAController;
  cs_address : string * Z;
  cs_max_client_num : pyval;
  cs_search_steps : pyval;
  cs_key : string;
  cs_started : bool;
}.

(** [ControllerClient(ip, port, key)], built from the server's own
    [ip()] and [port()]. *)
Record ControllerClient : Type := {
  cc_server : ControllerServer;
  cc_key : string;
}.

(** What goes over the wire and into the scope, in the order it happens. *)
Inductive event `{Externals} : Type :=
| EvNextTokens (tokens : list Z)
| EvSetTensor (param_name : string) (value : Tensor)
| EvUpdate (tokens : list Z) (score : float).

Declare Scope M_scope.
Delimit Scope M_scope with M.

Section Facade.
Context `{Externals}.

(** The arguments of [AutoPruner.__init__]. *)
Record init_args : Type := {
  a_program : Program;
  a_scope : gmap string Tensor;
  a_place : Place;
  a_params : list string;
  a_init_ratios : pyval;
  a_pruned_flops : pyval;
  a_pruned_latency : pyval;
  a_server_addr : option string * Z;
  a_init_temperature : pyval;
  a_reduce_rate : pyval;
  a_max_try_number : pyval;
  a_max_client_num : pyval;
  a_search_steps : pyval;
  a_max_ratios : pyval;
  a_min_ratios : pyval;
  a_key : string;
  a_is_server : bool;
}.

(** The attributes of an [AutoPruner].  [_base_flops] exists only when
    [pruned_flops] is true, [_current_ratios] only once [prune] has run:
    reading a missing attribute raises [AttributeError].  [_scope] is a
    reference to the caller's scope, which lives in the heap below. *)
Record AutoPruner : Type := {
  _program : Program;
  _place : Place;
  _params : list string;
  _init_ratios : pyval;
  _pruned_flops : pyval;
  _pruned_latency : pyval;
  _reduce_rate : pyval;
  _init_temperature : pyval;
  _max_try_number : pyval;
  _is_server : bool;
  _range_table : list Z * list Z;
  _base_flops : option Z;
  _controller_server : ControllerServer;
  _controller_client : ControllerClient;
  _iter : Z;
  _param_backup : list (string * Tensor);
  _current_ratios : option (list float);
}.

(** [_get_host_ip]. *)
Definition _get_host_ip : string := socket_gethostbyname socket_gethostname.

(** [server_ip == None or server_ip == ""]. *)
Definition host_is_empty (server_ip : option string) : bool :=
  match server_ip with
  | None => true
  | Some s => String.eqb s ""
  end.

(** [AutoPruner.__init__].  The name [latency] is bound nowhere in the
    module, and neither is [_program] in the argument list of the call of
    [_get_init_ratios]: evaluating either raises [NameError]. *)
Definition __init__ (a : init_args) : result AutoPruner :=
  (range_table <- _get_range_table (a_min_ratios a) (a_max_ratios a) ;;
   let base_flops :=
     if py_truthy (a_pruned_flops a) then Some (flops (a_program a)) else None in
   _ <- (if py_truthy (a_pruned_latency a)
         then Raise (NameError "latency") else Ok tt) ;;
   init_ratios <-
     match a_init_ratios a with
     | PyNone => Raise (NameError "_program")
     | r => Ok r
     end ;;
   init_tokens <- _ratios2tokens init_ratios ;;
   let controller :=
     {| sa_range_table := range_table;
        sa_reduce_rate := a_reduce_rate a;
        sa_init_temperature := a_init_temperature a;
        sa_max_try_number := a_max_try_number a;
        sa_init_tokens := init_tokens |} in
   let '(server_ip, server_port) := a_server_addr a in
   let server_ip :=
     if host_is_empty server_ip then _get_host_ip
     else match server_ip with Some s => s | None => EmptyString end in
   let controller_server :=
     {| cs_controller := controller;
        cs_address := (server_ip, server_port);
        cs_max_client_num := a_max_client_num a;
        cs_search_steps := a_search_steps a;
        cs_key := a_key a;
        cs_started := a_is_server a |} in
   Ok {| _program := a_program a;
         _place := a_place a;
         _params := a_params a;
         _init_ratios := init_ratios;
         _pruned_flops := a_pruned_flops a;
         _pruned_latency := a_pruned_latency a;
         _reduce_rate := a_reduce_rate a;
         _init_temperature := a_init_temperature a;
         _max_try_number := a_max_try_number a;
         _is_server := a_is_server a;
         _range_table := range_table;
         _base_flops := base_flops;
         _controller_server := controller_server;
         _controller_client :=
           {| cc_server := controller_server; cc_key := a_key a |};
         _iter := 0;
         _param_backup := [];
         _current_ratios := None |})%result.

(** *** The heap and the monad of the methods *)

(** The object, the caller's scope it refers to, the token vectors the
    controller server will answer to the coming [next_tokens()] calls, and
    the trace of what happened so far. *)
Record heap : Type := {
  self : AutoPruner;
  scope : gmap string Tensor;
  replies : list (list Z);
  trace : list event;
}.

Definition M (A : Type) : Type := heap -> result A * heap.

Definition ret {A} (a : A) : M A := fun h => (Ok a, h).
Definition raise {A} (e : pyexn) : M A := fun h => (Raise e, h).
Definition bind {A B} (m : M A) (k : A -> M B) : M B :=
  fun h => match m h with
           | (Ok a, h') => k a h'
           | (Raise e, h') => (Raise e, h')
           end.
Definition lift {A} (r : result A) : M A := fun h => (r, h).
Definition get_self : M AutoPruner := fun h => (Ok (self h), h).
Definition get_scope : M (gmap string Tensor) := fun h => (Ok (scope h), h).
Definition set_self (s : AutoPruner) : M unit :=
  fun h => (Ok tt, {| self := s; scope := scope h;
                      replies := replies h; trace := trace h |}).
Definition set_scope (sc : gmap string Tensor) : M unit :=
  fun h => (Ok tt, {| self := self h; scope := sc;
                      replies := replies h; trace := trace h |}).
Definition emit (ev : event) : M unit :=
  fun h => (Ok tt, {| self := self h; scope := scope h;
                      replies := replies h; trace := trace h ++ [ev] |}).

Notation "x <- c ;; k" := (bind c (fun x => k))
  (at level 100, c at next level, right associativity) : M_scope.
Notation "c ;;; k" := (bind c (fun _ => k))
  (at level 100, right associativity) : M_scope.

(** Attribute updates [self._x = v]. *)
Definition with_param_backup (b : list (string * Tensor)) (s : AutoPruner) :=
  {| _program := _program s; _place := _place s; _params := _params s;
     _init_ratios := _init_ratios s; _pruned_flops := _pruned_flops s;
     _pruned_latency := _pruned_latency s; _reduce_rate := _reduce_rate s;
     _init_temperature := _init_temperature s;
     _max_try_number := _max_try_number s; _is_server := _is_server s;
     _range_table := _range_table s; _base_flops := _base_flops s;
     _controller_server := _controller_server s;
     _controller_client := _controller_client s;
     _iter := _iter s; _param_backup := b;
     _current_ratios := _current_ratios s |}.

Definition with_current_ratios (r : list float) (s : AutoPruner) :=
  {| _program := _program s; _place := _place s; _params := _params s;
     _init_ratios := _init_ratios s; _pruned_flops := _pruned_flops s;
     _pruned_latency := _pruned_latency s; _reduce_rate := _reduce_rate s;
     _init_temperature := _init_temperature s;
     _max_try_number := _max_try_number s; _is_server := _is_server s;
     _range_table := _range_table s; _base_flops := _base_flops s;
     _controller_server := _controller_server s;
     _controller_client := _controller_client s;
     _iter := _iter s; _param_backup := _param_backup s;
     _current_ratios := Some r |}.

Definition with_iter (i : Z) (s : AutoPruner) :=
  {| _program := _program s; _place := _place s; _params := _params s;
     _init_ratios := _init_ratios s; _pruned_flops := _pruned_flops s;
     _pruned_latency := _pruned_latency s; _reduce_rate := _reduce_rate s;
     _init_temperature := _init_temperature s;
     _max_try_number := _max_try_number s; _is_server := _is_server s;
     _range_table := _range_table s; _base_flops := _base_flops s;
     _controller_server := _controller_server s;
     _controller_client := _controller_client s;
     _iter := i; _param_backup := _param_backup s;
     _current_ratios := _current_ratios s |}.

(** [self._controller_client.next_tokens()]: a blocking round trip; the
    answer is the server's next reply. *)
Definition client_next_tokens : M (list Z) :=
  fun h => match replies h with
           | [] => (Raise ConnectionError, h)
           | t :: rest =>
               (Ok t, {| self := self h; scope := scope h; replies := rest;
                         trace := trace h ++ [EvNextTokens t] |})
           end.

(** [self._controller_client.update(tokens, score)]. *)
Definition client_update (tokens : list Z) (score : float) : M unit :=
  emit (EvUpdate tokens score).

(** One turn of the loop of [_restore]:
    [param_t = scope.find_var(param_name).get_tensor()], where [find_var]
    answers [None] for a name the scope does not hold, then
    [param_t.set(self._param_backup[param_name], self._place)]. *)
Definition restore_one (backup : list (string * Tensor)) (param_name : string)
  : M unit :=
  (sc <- get_scope ;;
   match sc !! param_name with
   | None => raise (AttributeError "get_tensor")
   | Some _ =>
       match dict_get backup param_name with
       | None => raise (KeyError param_name)
       | Some value =>
           (set_scope (<[param_name := value]> sc) ;;;
            emit (EvSetTensor param_name value))
       end
   end)%M.

Fixpoint for_each {A} (body : A -> M unit) (l : list A) : M unit :=
  match l with
  | [] => ret tt
  | x :: l' => (body x ;;; for_each body l')%M
  end.

(** [_restore]: the loop over [self._param_backup.keys()], in the order the
    keys were inserted. *)
Definition _restore : M unit :=
  (s <- get_self ;;
   for_each (restore_one (_param_backup s)) (dict_keys (_param_backup s)))%M.

(** [_next_ratios]. *)
Definition _next_ratios : M (list float) :=
  (tokens <- client_next_tokens ;;
   lift (_tokens2ratios tokens))%M.

(** [prune]. *)
Definition prune (program : Program) : M Program :=
  (ratios <- _next_ratios ;;
   s <- get_self ;;
   set_self (with_current_ratios ratios s) ;;;
   s <- get_self ;;
   sc <- get_scope ;;
   let '(pruned_program, sc', backup') :=
     Pruner_prune program sc (_params s) ratios (_place s) false
                  (Some (_param_backup s)) in
   set_scope sc' ;;;
   set_self (with_param_backup (default (_param_backup s) backup') s) ;;;
   ret pruned_program)%M.

(** [reward]. *)
Definition reward (score : float) : M unit :=
  (_restore ;;;
   s <- get_self ;;
   set_self (with_param_backup [] s) ;;;
   s <- get_self ;;
   ratios <- match _current_ratios s with
             | Some r => ret r
             | None => raise (AttributeError "_current_ratios")
             end ;;
   tokens <- lift (_ratios2tokens (PyList (map PyFloat ratios))) ;;
   client_update tokens score ;;;
   s <- get_self ;;
   set_self (with_iter (_iter s + 1) s))%M.

(** [_constrain_func]. *)
Definition _constrain_func (tokens : list Z) : M bool :=
  (ratios <- lift (_tokens2ratios tokens) ;;
   s <- get_self ;;
   sc <- get_scope ;;
   let '(pruned_program, sc', _) :=
     Pruner_prune (_program s) sc (_params s) ratios (_place s) true None in
   set_scope sc' ;;;
   let pruned_flops_count := flops pruned_program in
   base_flops <- match _base_flops s with
                 | Some b => ret b
                 | None => raise (AttributeError "_base_flops")
                 end ;;
   rest <- lift (py_rsub_one (_pruned_flops s)) ;;
   target <- lift (py_mul_int base_flops rest) ;;
   lift (py_lt_int pruned_flops_count target))%M.

End Facade.

Notation "x <- c ;; k" := (bind c (fun x => k))
  (at level 100, c at next level, right associativity) : M_scope.
Notation "c ;;; k" := (bind c (fun _ => k))
  (at level 100, right associativity) : M_scope.

(* ================================================================== *)
(** ** A small concrete world, to run the methods on *)

(** Programs are their FLOPs count, tensors are integers.  The pruner removes
    one hundredth of the FLOPs per token of each ratio; unless it only
    prunes the graph, it zeroes every listed parameter the scope holds, in
    the order of [params], and records the value it overwrites, once, in
    the backup ([param_backup[name] = value] for a new key). *)
Definition demo_prune_param (st : gmap string Z * list (string * Z))
    (name : string) : gmap string Z * list (string * Z) :=
  let '(sc, backup) := st in
  match sc !! name with
  | None => (sc, backup)
  | Some v =>
      (<[name := 0]> sc,
       match dict_get backup name with
       | Some _ => backup
       | None => backup ++ [(name, v)]
       end)
  end.

Definition demo_Pruner_prune (program : Z) (sc : gmap string Z)
    (params : list string) (ratios : list float) (place : unit)
    (only_graph : bool) (param_backup : option (list (string * Z)))
  : Z * gmap string Z * option (list (string * Z)) :=
  let kept :=
    fold_left (fun p r => p - p * trunc_SF (Prim2SF (r * 100)%float) / 100)
              ratios program in
  if only_graph then (kept, sc, param_backup)
  else
    let '(sc', backup') :=
      fold_left demo_prune_param params (sc, default [] param_backup) in
    (kept, sc', match param_backup with Some _ => Some backup' | None => None end).

#[local] Instance demo_externals : Externals := {|
  Program := Z;
  Place := unit;
  Tensor := Z;
  flops := fun p => p;
  Pruner_prune := demo_Pruner_prune;
  socket_gethostname := "worker-0";
  socket_gethostbyname := fun _ => "10.0.0.7";
|}.

Definition demo_scope : gmap string Z :=
  <["conv1_weights" := 11]> (<["conv2_weights" := 22]> (<["fc_weights" := 33]> ∅)).

Definition demo_args : init_args := {|
  a_program := 1000;
  a_scope := demo_scope;
  a_place := tt;
  a_params := ["conv1_weights"; "conv2_weights"];
  a_init_ratios := PyList [PyFloat 0.5; PyFloat 0.5];
  a_pruned_flops := PyFloat 0.5;
  a_pruned_latency := PyNone;
  a_server_addr := (Some EmptyString, 0);
  a_init_temperature := PyInt 100;
  a_reduce_rate := PyFloat 0.85;
  a_max_try_number := PyInt 300;
  a_max_client_num := PyInt 10;
  a_search_steps := PyInt 300;
  a_max_ratios := PyList [PyFloat 0.9];
  a_min_ratios := PyList [PyInt 0];
  a_key := "auto_pruner";
  a_is_server := true;
|}.

Definition with_init_ratios (r : pyval) (a : init_args) : init_args :=
  {| a_program := a_program a; a_scope := a_scope a; a_place := a_place a;
     a_params := a_params a; a_init_ratios := r;
     a_pruned_flops := a_pruned_flops a;
     a_pruned_latency := a_pruned_latency a;
     a_server_addr := a_server_addr a;
     a_init_temperature := a_init_temperature a;
     a_reduce_rate := a_reduce_rate a;
     a_max_try_number := a_max_try_number a;
     a_max_client_num := a_max_client_num a;
     a_search_steps := a_search_steps a;
     a_max_ratios := a_max_ratios a; a_min_ratios := a_min_ratios a;
     a_key := a_key a; a_is_server := a_is_server a |}.

Definition with_pruned_latency (x : pyval) (a : init_args) : init_args :=
  {| a_program := a_program a; a_scope := a_scope a; a_place := a_place a;
     a_params := a_params a; a_init_ratios := a_init_ratios a;
     a_pruned_flops := a_pruned_flops a;
     a_pruned_latency := x;
     a_server_addr := a_server_addr a;
     a_init_temperature := a_init_temperature a;
     a_reduce_rate := a_reduce_rate a;
     a_max_try_number := a_max_try_number a;
     a_max_client_num := a_max_client_num a;
     a_search_steps := a_search_steps a;
     a_max_ratios := a_max_ratios a; a_min_ratios := a_min_ratios a;
     a_key := a_key a; a_is_server := a_is_server a |}.

Definition with_bounds (lo hi : pyval) (a : init_args) : init_args :=
  {| a_program := a_program a; a_scope := a_scope a; a_place := a_place a;
     a_params := a_params a; a_init_ratios := a_init_ratios a;
     a_pruned_flops := a_pruned_flops a;
     a_pruned_latency := a_pruned_latency a;
     a_server_addr := a_server_addr a;
     a_init_temperature := a_init_temperature a;
     a_reduce_rate := a_reduce_rate a;
     a_max_try_number := a_max_try_number a;
     a_max_client_num := a_max_client_num a;
     a_search_steps := a_search_steps a;
     a_max_ratios := hi; a_min_ratios := lo;
     a_key := a_key a; a_is_server := a_is_server a |}.

Definition with_server_addr (addr : option string * Z) (a : init_args) : init_args :=
  {| a_program := a_program a; a_scope := a_scope a; a_place := a_place a;
     a_params := a_params a; a_init_ratios := a_init_ratios a;
     a_pruned_flops := a_pruned_flops a;
     a_pruned_latency := a_pruned_latency a;
     a_server_addr := addr;
     a_init_temperature := a_init_temperature a;
     a_reduce_rate := a_reduce_rate a;
     a_max_try_number := a_max_try_number a;
     a_max_client_num := a_max_client_num a;
     a_search_steps := a_search_steps a;
     a_max_ratios := a_max_ratios a; a_min_ratios := a_min_ratios a;
     a_key := a_key a; a_is_server := a_is_server a |}.

(** The heap right after a successful construction, with the replies the
    server is going to give. *)
Definition fresh_heap `{Externals} (obj : AutoPruner)
    (sc : gmap string Tensor) (answers : list (list Z)) : heap :=
  {| self := obj; scope := sc; replies := answers; trace := [] |}.

(** The object [__init__ demo_args] builds. *)
Definition demo_controller : SAController := {|
  sa_range_table := ([0], [90]);
  sa_reduce_rate := PyFloat 0.85;
  sa_init_temperature := PyInt 100;
  sa_max_try_number := PyInt 300;
  sa_init_tokens := [50; 50];
|}.

Definition demo_server : ControllerServer := {|
  cs_controller := demo_controller;
  cs_address := ("10.0.0.7", 0);
  cs_max_client_num := PyInt 10;
  cs_search_steps := PyInt 300;
  cs_key := "auto_pruner";
  cs_started := true;
|}.

Definition demo_object : AutoPruner := {|
  _program := 1000;
  _place := tt;
  _params := ["conv1_weights"; "conv2_weights"];
  _init_ratios := PyList [PyFloat 0.5; PyFloat 0.5];
  _pruned_flops := PyFloat 0.5;
  _pruned_latency := PyNone;
  _reduce_rate := PyFloat 0.85;
  _init_temperature := PyInt 100;
  _max_try_number := PyInt 300;
  _is_server := true;
  _range_table := ([0], [90]);
  _base_flops := Some 1000;
  _controller_server := demo_server;
  _controller_client := {| cc_server := demo_server; cc_key := "auto_pruner" |};
  _iter := 0;
  _param_backup := [];
  _current_ratios := None;
|}.

(** The object built with [pruned_flops=0.0]: no [_base_flops]. *)
Definition demo_object_no_flops : AutoPruner := {|
  _program := 1000;
  _place := tt;
  _params := ["conv1_weights"; "conv2_weights"];
  _init_ratios := PyList [PyFloat 0.5; PyFloat 0.5];
  _pruned_flops := PyFloat 0;
  _pruned_latency := PyNone;
  _reduce_rate := PyFloat 0.85;
  _init_temperature := PyInt 100;
  _max_try_number := PyInt 300;
  _is_server := true;
  _range_table := ([0], [90]);
  _base_flops := None;
  _controller_server := demo_server;
  _controller_client := {| cc_server := demo_server; cc_key := "auto_pruner" |};
  _iter := 0;
  _param_backup := [];
  _current_ratios := None;
|}.

Definition demo_heap (answers : list (list Z)) : heap :=
  fresh_heap demo_object demo_scope answers.

(** One iteration of the caller's loop: propose, then report. *)
Definition run_trial `{Externals} (program : Program) (score : float) : M unit :=
  (prune program ;;; reward score)%M.

(** The heap in the middle of a trial: [prune] has run, [reward] has not. *)
Definition demo_mid_trial : heap := snd (prune 1000 (demo_heap [[29; 30]])).



(** The constructor called with its three required arguments only: every
    other argument at the default of the signature of [__init__]. *)
Definition default_args `{Externals} (program : Program)
    (sc : gmap string Tensor) (place : Place) : init_args := {|
  a_program := program;
  a_scope := sc;
  a_place := place;
  a_params := [];
  a_init_ratios := PyNone;
  a_pruned_flops := PyFloat 0.5;
  a_pruned_latency := PyNone;
  a_server_addr := (Some EmptyString, 0);
  a_init_temperature := PyInt 100;
  a_reduce_rate := PyFloat 0.85;
  a_max_try_number := PyInt 300;
  a_max_client_num := PyInt 10;
  a_search_steps := PyInt 300;
  a_max_ratios := PyList [PyFloat 0.9];
  a_min_ratios := PyList [PyInt 0];
  a_key := "auto_pruner";
  a_is_server := true;
|}.

Definition with_pruned_flops (x : pyval) (a : init_args) : init_args :=
  {| a_program := a_program a; a_scope := a_scope a; a_place := a_place a;
     a_params := a_params a; a_init_ratios := a_init_ratios a;
     a_pruned_flops := x;
     a_pruned_latency := a_pruned_latency a;
     a_server_addr := a_server_addr a;
     a_init_temperature := a_init_temperature a;
     a_reduce_rate := a_reduce_rate a;
     a_max_try_number := a_max_try_number a;
     a_max_client_num := a_max_client_num a;
     a_search_steps := a_search_steps a;
     a_max_ratios := a_max_ratios a; a_min_ratios := a_min_ratios a;
     a_key := a_key a; a_is_server := a_is_server a |}.

(** A scope that lacks one of the parameters the backup names. *)
Definition demo_broken_trial : heap :=
  {| self := self demo_mid_trial;
     scope := delete "conv2_weights"%string (scope demo_mid_trial);
     replies := replies demo_mid_trial;
     trace := trace demo_mid_trial |}.

(** The same trial after its evaluation has changed [fc_weights], which is
    no pruned parameter and is in no backup. *)
Definition demo_tuned_trial : heap :=
  {| self := self demo_mid_trial;
     scope := <["fc_weights"%string := 34]> (scope demo_mid_trial);
     replies := replies demo_mid_trial;
     trace := trace demo_mid_trial |}.

(* ================================================================== *)
(** ** Notions used by the statements *)

(** The token of a finite quotient: its integral part, toward zero. *)
Definition trunc_token (q : float) : Z := Z.quot (scaled q) (2 ^ 1074).

(** The exceptions the encoding can raise. *)
Definition encoding_error (e : pyexn) : Prop :=
  e = TypeError \/ e = ValueError \/ e = OverflowError.

(** The rounding noise allowed around a decoded value: [2^-52]. *)
Definition slack : Q := 1 # 4503599627370496.

(** Where an exact value [N / D] lies with respect to the integer [m]:
    the meaning of the locations of [SpecFloat]. *)
Definition inbetween (N D m : Z) (l : location) : Prop :=
  match l with
  | loc_Exact => N = m * D
  | loc_Inexact Lt => m * D < N /\ 2 * N < (2 * m + 1) * D
  | loc_Inexact Eq => 2 * N = (2 * m + 1) * D
  | loc_Inexact Gt => (2 * m + 1) * D < 2 * N /\ N < (m + 1) * D
  end.

(** What [binary_round_aux] returns for the mantissa [m2] and exponent
    [e2] it ends with. *)
Definition round_shape (sx : bool) (m2 e2 : Z) : spec_float :=
  match m2 with
  | 0 => S754_zero sx
  | Zpos m => if e2 <=? 971 then S754_finite sx m e2 else S754_infinity sx
  | Zneg _ => S754_nan
  end.

(** The check of one line of the decoding table: the ratio of token [t]
    against the two ends of the interval of values that encode to [t]. *)
Definition roundtrip_check (t : Z) : bool :=
  match _tokens2ratios [t] with
  | Ok [r] =>
      float_finite r
      && (((t + 1) * scaled 0.01%float - scaled r) * (100 * 2 ^ 52)
          <=? (2 ^ 52 + 100) * 2 ^ 1074)
      && ((scaled r * 2 ^ 46 - (t * 2 ^ 46 - 1) * scaled 0.01%float) * 2 ^ 52
          <=? 2 ^ 1074 * 2 ^ 46)
  | _ => false
  end.

(** Decoding then encoding one token. *)
Definition reencode (t : Z) : result (list Z) :=
  (r <- _tokens2ratios [t] ;; _ratios2tokens (PyList (map PyFloat r)))%result.


(** The tensor writes of the loop of [_restore] over the keys [ks], in the
    order of [ks], and the scope they leave. *)
Definition restore_events `{Externals} (backup : list (string * Tensor))
    (ks : list string) : list event :=
  omap (fun k => match dict_get backup k with
                 | Some v => Some (EvSetTensor k v)
                 | None => None
                 end) ks.

Definition restore_keys `{Externals} (backup : list (string * Tensor))
    (sc : gmap string Tensor) (ks : list string) : gmap string Tensor :=
  foldl (fun m k => match dict_get backup k with
                    | Some v => <[k := v]> m
                    | None => m
                    end) sc ks.

(** The writes of a whole [_restore]: one per key, in insertion order. *)
Definition restore_trace `{Externals} (backup : list (string * Tensor))
  : list event :=
  restore_events backup (dict_keys backup).

(** The program [_constrain_func] measures: the graph pruned with the
    decoded ratios. *)
Definition pruned_graph `{Externals} (h : heap) (ratios : list float) : Program :=
  fst (fst (Pruner_prune (_program (self h)) (scope h) (_params (self h))
                         ratios (_place (self h)) true None)).

(** The token the re-encoding of a decoded token [t] of [0..100] yields. *)
Definition reencoded_token (t : Z) : Z :=
  if (t =? 29) || (t =? 58) || (t =? 59) then t - 1 else t.

(** A message to the controller. *)
Definition is_update `{Externals} (ev : event) : bool :=
  match ev with EvUpdate _ _ => true | _ => false end.

(* ================================================================== *)
(** * Properties *)

Module Binary64.

Lemma digits2_pos_bounds (m : positive) :
  2 ^ (Zpos (digits2_pos m) - 1) <= Zpos m < 2 ^ Zpos (digits2_pos m).
Proof.
  induction m as [m IH | m IH | ]; simpl digits2_pos.
  3: (simpl; lia).
  all: rewrite Pos2Z.inj_succ; first [rewrite (Pos2Z.inj_xI m) | rewrite (Pos2Z.inj_xO m)];
    replace (Z.succ (Zpos (digits2_pos m)) - 1)
      with (Z.succ (Zpos (digits2_pos m) - 1)) by lia;
    rewrite !Z.pow_succ_r by lia;
    set (a := 2 ^ (Z.pos (digits2_pos m) - 1)) in *;
    set (b := 2 ^ (Z.pos (digits2_pos m))) in *;
    clearbody a b; lia.
Qed.

(** A finite binary64 number is canonical: exponent in range, at most 53
    digits, and exactly 53 unless it is subnormal. *)
Lemma valid_finite (f : float) s m e :
  Prim2SF f = S754_finite s m e ->
  -1074 <= e <= 971 /\ Zpos m < 2 ^ 53 /\ (e = -1074 \/ 2 ^ 52 <= Zpos m).
Proof.
  intros Hf. pose proof (Prim2SF_valid f) as Hv. rewrite Hf in Hv.
  unfold SpecFloat.valid_binary, bounded, canonical_mantissa, fexp, SpecFloat.emin in Hv.
  apply andb_true_iff in Hv as [Hc He].
  apply Z.eqb_eq in Hc. apply Z.leb_le in He.
  change prec with 53 in *. change emax with 1024 in *.
  pose proof (digits2_pos_bounds m) as [Hlo Hhi].
  set (d := Zpos (digits2_pos m)) in *.
  assert (Hd : d <= 53) by lia.
  split; [lia|]. split.
  - eapply Z.lt_le_trans; [exact Hhi|]. apply Z.pow_le_mono_r; lia.
  - destruct (Z.eq_dec e (-1074)) as [|Hne]; [now left|right].
    assert (d = 53) by lia.
    replace 52 with (d - 1) by lia. exact Hlo.
Qed.

Lemma trunc_SF_quot s m e :
  -1074 <= e ->
  trunc_SF (S754_finite s m e) = Z.quot (scaled_SF (S754_finite s m e)) (2 ^ 1074).
Proof.
  intros He. unfold trunc_SF, scaled_SF.
  assert (Hq : Z.shiftl (Zpos m) e = Z.quot (Zpos m * 2 ^ (e + 1074)) (2 ^ 1074)).
  { rewrite Z.quot_div_nonneg by (try apply Z.mul_nonneg_nonneg; try apply Z.pow_nonneg; lia).
    destruct (Z.le_gt_cases 0 e) as [Hpos | Hneg].
    - rewrite Z.shiftl_mul_pow2 by lia.
      rewrite Z.pow_add_r by lia. rewrite Z.mul_assoc.
      rewrite Z.div_mul; [reflexivity|]. apply Z.pow_nonzero; lia.
    - rewrite Z.shiftl_div_pow2 by lia.
      replace (2 ^ 1074) with (2 ^ (- e) * 2 ^ (e + 1074))
        by (rewrite <- Z.pow_add_r by lia; f_equal; lia).
      rewrite Z.div_mul_cancel_r; [reflexivity| |]; apply Z.pow_nonzero; lia. }
  destruct s; unfold cond_Zopp.
  - rewrite Z.quot_opp_l by (apply Z.pow_nonzero; lia). now rewrite Hq.
  - exact Hq.
Qed.

End Binary64.

Lemma inbetween_bounds N D m l :
  inbetween N D m l -> m * D <= N < (m + 1) * D \/ (D <= 0).
Proof. destruct l as [|[]]; simpl; lia. Qed.

Lemma shr_1_inbetween N D mrs :
  0 <= shr_m mrs -> 0 < D ->
  inbetween N D (shr_m mrs) (loc_of_shr_record mrs) ->
  0 <= shr_m (shr_1 mrs) /\
  shr_m (shr_1 mrs) = shr_m mrs / 2 /\
  inbetween N (2 * D) (shr_m (shr_1 mrs)) (loc_of_shr_record (shr_1 mrs)).
Proof.
  destruct mrs as [m r s]. simpl shr_m at 1 2.
  intros Hm HD Hin.
  destruct m as [|p|p]; [| |lia].
  - destruct r, s; simpl in *; repeat split; lia.
  - destruct p as [p|p|].
    + rewrite (Pos2Z.inj_xI p) in Hin.
      assert (Hdiv : Zpos p~1 / 2 = Zpos p)
        by (rewrite (Pos2Z.inj_xI p); symmetry; apply (Z.div_unique _ _ _ 1); lia).
      destruct r, s; simpl shr_1; simpl shr_m; simpl loc_of_shr_record;
        rewrite Hdiv; simpl in Hin |- *; repeat split; nia.
    + rewrite (Pos2Z.inj_xO p) in Hin.
      assert (Hdiv : Zpos p~0 / 2 = Zpos p)
        by (rewrite (Pos2Z.inj_xO p); symmetry; apply (Z.div_unique _ _ _ 0); lia).
      destruct r, s; simpl shr_1; simpl shr_m; simpl loc_of_shr_record;
        rewrite Hdiv; simpl in Hin |- *; repeat split; nia.
    + destruct r, s; simpl in *; repeat split; lia.
Qed.

Lemma iter_pos_inbetween (p : positive) : forall N D mrs,
  0 <= shr_m mrs -> 0 < D ->
  inbetween N D (shr_m mrs) (loc_of_shr_record mrs) ->
  0 <= shr_m (SpecFloat.iter_pos shr_1 p mrs) /\
  shr_m (SpecFloat.iter_pos shr_1 p mrs) = shr_m mrs / 2 ^ Zpos p /\
  inbetween N (2 ^ Zpos p * D) (shr_m (SpecFloat.iter_pos shr_1 p mrs))
            (loc_of_shr_record (SpecFloat.iter_pos shr_1 p mrs)).
Proof.
  induction p as [p IH | p IH | ]; intros N D mrs Hm HD Hin;
    simpl SpecFloat.iter_pos.
  - destruct (shr_1_inbetween N D mrs Hm HD Hin) as (H1 & E1 & H2).
    destruct (IH N (2 * D) _ H1 ltac:(lia) H2) as (H3 & E3 & H4).
    assert (Hp : 0 < 2 ^ Zpos p) by (apply Z.pow_pos_nonneg; lia).
    destruct (IH N (2 ^ Zpos p * (2 * D)) _ H3 ltac:(nia) H4) as (H5 & E5 & H6).
    assert (Hpow : 2 ^ Zpos p~1 = 2 * (2 ^ Zpos p * 2 ^ Zpos p)).
    { rewrite (Pos2Z.inj_xI p).
      replace (2 * Zpos p + 1) with (Zpos p + Zpos p + 1) by lia.
      rewrite !Z.pow_add_r by lia. change (2 ^ 1) with 2. ring. }
    split; [exact H5|]. split.
    + rewrite E5, E3, E1, Hpow, !Z.div_div by lia. reflexivity.
    + replace (2 ^ Zpos p~1 * D) with (2 ^ Zpos p * (2 ^ Zpos p * (2 * D)));
        [exact H6|]. rewrite Hpow. ring.
  - destruct (IH N D _ Hm HD Hin) as (H3 & E3 & H4).
    assert (Hp : 0 < 2 ^ Zpos p) by (apply Z.pow_pos_nonneg; lia).
    destruct (IH N (2 ^ Zpos p * D) _ H3 ltac:(nia) H4) as (H5 & E5 & H6).
    assert (Hpow : 2 ^ Zpos p~0 = 2 ^ Zpos p * 2 ^ Zpos p).
    { rewrite (Pos2Z.inj_xO p).
      replace (2 * Zpos p) with (Zpos p + Zpos p) by lia.
      rewrite !Z.pow_add_r by lia. ring. }
    split; [exact H5|]. split.
    + rewrite E5, E3, Hpow, !Z.div_div by lia. reflexivity.
    + replace (2 ^ Zpos p~0 * D) with (2 ^ Zpos p * (2 ^ Zpos p * D));
        [exact H6|]. rewrite Hpow. ring.
  - change (2 ^ 1) with 2. apply shr_1_inbetween; assumption.
Qed.

Lemma shr_inbetween N D mrs e n mrs' e' :
  0 <= shr_m mrs -> 0 < D ->
  inbetween N D (shr_m mrs) (loc_of_shr_record mrs) ->
  shr mrs e n = (mrs', e') ->
  e' = e + Z.max n 0 /\ 0 <= shr_m mrs' /\
  shr_m mrs' = shr_m mrs / 2 ^ Z.max n 0 /\
  inbetween N (2 ^ Z.max n 0 * D) (shr_m mrs') (loc_of_shr_record mrs').
Proof.
  intros Hm HD Hin Hs. unfold shr in Hs.
  destruct n as [|p|p]; inversion Hs; subst; clear Hs.
  - rewrite Z.max_r by lia. change (2 ^ 0) with 1.
    rewrite Z.mul_1_l, Z.div_1_r. repeat split; auto; lia.
  - rewrite Z.max_l by lia. split; [reflexivity|].
    apply iter_pos_inbetween; assumption.
  - rewrite Z.max_r by lia. change (2 ^ 0) with 1.
    rewrite Z.mul_1_l, Z.div_1_r. repeat split; auto; lia.
Qed.

Lemma loc_of_shr_record_of_loc m l :
  loc_of_shr_record (shr_record_of_loc m l) = l /\
  shr_m (shr_record_of_loc m l) = m.
Proof. destruct l as [|[]]; simpl; auto. Qed.

Lemma Zdigits2_bounds m :
  0 < m -> 2 ^ (Zdigits2 m - 1) <= m < 2 ^ Zdigits2 m.
Proof.
  destruct m as [|p|p]; try lia. intros _. simpl Zdigits2.
  apply Binary64.digits2_pos_bounds.
Qed.

Lemma shr_fexp_inbetween N D m e l mrs' e' :
  0 <= m -> 0 < D -> inbetween N D m l ->
  shr_fexp prec emax m e l = (mrs', e') ->
  exists k, 0 <= k /\ e' = e + k /\ -1074 <= e' /\ 0 <= shr_m mrs' /\
    shr_m mrs' = m / 2 ^ k /\
    inbetween N (2 ^ k * D) (shr_m mrs') (loc_of_shr_record mrs') /\
    (shr_m mrs' = 0 -> e' <= Z.max e (-1074)).
Proof.
  intros Hm HD Hin Hs. unfold shr_fexp in Hs.
  destruct (loc_of_shr_record_of_loc m l) as [Hl Hr].
  pose proof (shr_inbetween N D (shr_record_of_loc m l) e
                (fexp prec emax (Zdigits2 m + e) - e) mrs' e') as Hsh.
  rewrite Hl, Hr in Hsh. specialize (Hsh Hm HD Hin Hs).
  destruct Hsh as (He' & Hm' & Hdiv & Hin').
  set (n := fexp prec emax (Zdigits2 m + e) - e) in *.
  exists (Z.max n 0). split; [lia|]. split; [exact He'|].
  assert (Hfexp : fexp prec emax (Zdigits2 m + e)
                  = Z.max (Zdigits2 m + e - 53) (-1074)) by reflexivity.
  split; [lia|]. split; [exact Hm'|]. split; [exact Hdiv|].
  split; [exact Hin'|].
  intros Hz.
  destruct (Z.le_gt_cases n 0) as [Hn | Hn]; [lia|].
  rewrite Z.max_l in * by lia.
  destruct (Z.eq_dec m 0) as [-> | Hne].
  - simpl Zdigits2 in *. lia.
  - pose proof (Zdigits2_bounds m ltac:(lia)) as [Hlo Hhi].
    assert (Hpow : 0 < 2 ^ n) by (apply Z.pow_pos_nonneg; lia).
    assert (Hlt : m < 2 ^ n).
    { rewrite Hz in Hdiv. symmetry in Hdiv.
      apply Z.div_small_iff in Hdiv; lia. }
    assert (Zdigits2 m - 1 < n).
    { apply (Z.pow_lt_mono_r_iff 2); lia. }
    lia.
Qed.


Lemma round_nearest_even_bracket N D m l :
  0 <= m -> 0 < D -> inbetween N D m l ->
  let m1 := round_nearest_even m l in
  m <= m1 <= m + 1 /\ (2 * m1 - 1) * D <= 2 * N <= (2 * m1 + 1) * D.
Proof.
  intros Hm HD Hin. destruct l as [|[]]; simpl in *.
  - split; nia.
  - destruct (Z.even m); split; nia.
  - split; nia.
  - split; nia.
Qed.

Lemma binary_round_aux_spec sx mz ez lz N D :
  0 <= mz -> 0 < D -> inbetween N D mz lz ->
  exists m2 k, 0 <= m2 /\ 0 <= k /\ -1074 <= ez + k /\
    (2 * m2 - 1) * (2 ^ k * D) <= 2 * N /\
    N < (m2 + 1) * (2 ^ k * D) /\
    (m2 = 0 -> ez + k <= Z.max ez (-1074)) /\
    binary_round_aux prec emax sx mz ez lz = round_shape sx m2 (ez + k).
Proof.
  intros Hm HD Hin. unfold binary_round_aux.
  destruct (shr_fexp prec emax mz ez lz) as [mrs1 e1] eqn:E1.
  destruct (shr_fexp_inbetween N D mz ez lz mrs1 e1 Hm HD Hin E1)
    as (k1 & Hk1 & He1 & Hmin1 & Hm1 & Hdiv1 & Hin1 & Hz1).
  assert (HD1 : 0 < 2 ^ k1 * D)
    by (apply Z.mul_pos_pos; [apply Z.pow_pos_nonneg; lia | lia]).
  destruct (round_nearest_even_bracket N (2 ^ k1 * D) _ _ Hm1 HD1 Hin1)
    as [Hr1 Hr2].
  set (m1 := round_nearest_even (shr_m mrs1) (loc_of_shr_record mrs1)) in *.
  destruct (shr_fexp prec emax m1 e1 loc_Exact) as [mrs2 e2] eqn:E2.
  destruct (shr_fexp_inbetween m1 1 m1 e1 loc_Exact mrs2 e2
              ltac:(lia) ltac:(lia) ltac:(simpl; lia) E2)
    as (k2 & Hk2 & He2 & Hmin2 & Hm2 & Hdiv2 & Hin2 & Hz2).
  assert (Hp2 : 0 < 2 ^ k2) by (apply Z.pow_pos_nonneg; lia).
  assert (Hb2 : shr_m mrs2 * 2 ^ k2 <= m1 < (shr_m mrs2 + 1) * 2 ^ k2).
  { destruct (inbetween_bounds _ _ _ _ Hin2) as [Hb | Hb]; lia. }
  exists (shr_m mrs2), (k1 + k2).
  rewrite Z.pow_add_r by lia.
  set (P1 := 2 ^ k1) in *. set (P2 := 2 ^ k2) in *.
  set (m2 := shr_m mrs2) in *.
  assert (HP1 : 0 < P1) by (apply Z.pow_pos_nonneg; lia).
  split; [exact Hm2|]. split; [lia|]. split; [lia|].
  split; [|split; [|split]].
  - clearbody P1 P2 m1 m2.
    assert ((2 * m2 - 1) * P2 <= 2 * m1 - 1) by nia.
    assert ((2 * m2 - 1) * P2 * (P1 * D) <= (2 * m1 - 1) * (P1 * D))
      by (apply Z.mul_le_mono_nonneg_r; lia).
    nia.
  - clearbody P1 P2 m1 m2.
    assert (2 * m1 + 2 <= 2 * (m2 + 1) * P2) by nia.
    assert ((2 * m1 + 2) * (P1 * D) <= 2 * (m2 + 1) * P2 * (P1 * D))
      by (apply Z.mul_le_mono_nonneg_r; lia).
    nia.
  - intros Hz. specialize (Hz2 Hz).
    destruct (Z.eq_dec m1 0) as [Hm10 | Hm10].
    + assert (shr_m mrs1 = 0) by lia. specialize (Hz1 H). lia.
    + (* a positive mantissa is shifted to zero only down at [emin] *)
      assert (Hk2pos : 0 < k2).
      { destruct (Z.eq_dec k2 0) as [Hk0|]; [|lia].
        unfold P2 in Hb2. rewrite Hk0 in Hb2. change (2 ^ 0) with 1 in Hb2.
        unfold m2 in Hb2. lia. }
      unfold shr_fexp, shr in E2.
      assert (Hfexp : fexp prec emax (Zdigits2 m1 + e1)
                      = Z.max (Zdigits2 m1 + e1 - 53) (-1074)) by reflexivity.
      pose proof (Zdigits2_bounds m1 ltac:(lia)) as [Hlo Hhi].
      assert (Hlt : m1 < 2 ^ k2) by (unfold P2, m2 in Hb2; lia).
      assert (Zdigits2 m1 - 1 < k2) by (apply (Z.pow_lt_mono_r_iff 2); lia).
      destruct (fexp prec emax (Zdigits2 m1 + e1) - e1) as [|p|p] eqn:En;
        inversion E2; subst e2; lia.
  - unfold round_shape. fold m2.
    replace (ez + (k1 + k2)) with e2 by lia.
    destruct m2; reflexivity.
Qed.


Lemma new_location_inbetween D q r :
  0 < D -> 0 <= r < D ->
  inbetween (D * q + r) D q (new_location D r).
Proof.
  intros HD Hr. unfold new_location.
  destruct (Z.even D) eqn:Ev.
  - unfold new_location_even.
    destruct (Z.eqb_spec r 0) as [-> | Hne]; [simpl; lia|].
    destruct (Z.compare_spec (2 * r) D); simpl; lia.
  - unfold new_location_odd.
    destruct (Z.eqb_spec r 0) as [-> | Hne]; [simpl; lia|].
    assert (Hodd : Z.odd D = true) by (rewrite <- Z.negb_even, Ev; reflexivity).
    apply Z.odd_spec in Hodd. destruct Hodd as [h Hh].
    destruct (Z.compare_spec (2 * r + 1) D); simpl; lia.
Qed.

Lemma SFdiv_core_binary_spec mx ex my ey q e' l :
  SFdiv_core_binary prec emax (Zpos mx) ex (Zpos my) ey = (q, e', l) ->
  e' = Z.min (Z.max (Zdigits2 (Zpos mx) + ex - (Zdigits2 (Zpos my) + ey) - 53) (-1074))
             (ex - ey) /\
  0 <= q /\
  inbetween (Zpos mx * 2 ^ (ex - ey - e')) (Zpos my) q l.
Proof.
  unfold SFdiv_core_binary.
  set (e0 := Z.min (fexp prec emax (Zdigits2 (Zpos mx) + ex - (Zdigits2 (Zpos my) + ey))) (ex - ey)).
  set (s := ex - ey - e0).
  assert (Hs : 0 <= s) by (unfold s, e0; lia).
  set (m' := match s with Zpos _ => Z.shiftl (Zpos mx) s | 0 => Zpos mx | Zneg _ => 0 end).
  assert (Hm' : m' = Zpos mx * 2 ^ s).
  { unfold m'. destruct s as [|p|p] eqn:Es.
    - change (2 ^ 0) with 1. lia.
    - apply Z.shiftl_mul_pow2. lia.
    - lia. }
  pose proof (Z_div_mod m' (Zpos my) ltac:(lia)) as Hdm.
  destruct (Z.div_eucl m' (Zpos my)) as [q0 r0].
  destruct Hdm as [Heq Hr].
  intros Hres. inversion Hres; subst q e' l; clear Hres.
  split; [reflexivity|].
  assert (Hm'pos : 0 <= m').
  { rewrite Hm'. apply Z.mul_nonneg_nonneg; [lia|]. apply Z.pow_nonneg. lia. }
  split; [nia|].
  fold s. rewrite <- Hm', Heq.
  apply new_location_inbetween; lia.
Qed.


Lemma div_round_spec (v c : float) mx ex my ey :
  Prim2SF v = S754_finite false mx ex ->
  Prim2SF c = S754_finite false my ey ->
  exists m2 e2, 0 <= m2 /\ -1074 <= e2 /\
    (2 * m2 - 1) * 2 ^ (e2 + 1074) * scaled c <= 2 * (scaled v * 2 ^ 1074) /\
    scaled v * 2 ^ 1074 < (m2 + 1) * 2 ^ (e2 + 1074) * scaled c /\
    (m2 = 0 ->
     e2 <= Z.max (Zdigits2 (Zpos mx) + ex - (Zdigits2 (Zpos my) + ey) - 53) (-1074)) /\
    Prim2SF (v / c) = round_shape false m2 e2.
Proof.
  intros Hv Hc.
  destruct (Binary64.valid_finite v _ _ _ Hv) as (Hex & _ & _).
  destruct (Binary64.valid_finite c _ _ _ Hc) as (Hey & _ & _).
  rewrite div_spec. unfold scaled. rewrite Hv, Hc.
  unfold SF64div, SFdiv, scaled_SF, cond_Zopp.
  destruct (SFdiv_core_binary prec emax (Zpos mx) ex (Zpos my) ey)
    as [[q e'] l] eqn:Ecore.
  destruct (SFdiv_core_binary_spec _ _ _ _ _ _ _ Ecore) as (He' & Hq & Hin).
  destruct (binary_round_aux_spec (xorb false false) q e' l
              (Zpos mx * 2 ^ (ex - ey - e')) (Zpos my) Hq ltac:(lia) Hin)
    as (m2 & k & Hm2 & Hk & Hmin & B1 & B2 & Hz & Hres).
  exists m2, (e' + k).
  set (dd := Zdigits2 (Zpos mx) + ex - (Zdigits2 (Zpos my) + ey) - 53) in *.
  set (s := ex - ey - e') in *.
  set (w := e' + ey + 2148).
  assert (Hs : 0 <= s) by (unfold s; lia).
  assert (Hw : 0 <= w) by (unfold w; lia).
  assert (E1 : 2 ^ k * 2 ^ w = 2 ^ (e' + k + 1074) * 2 ^ (ey + 1074)).
  { rewrite <- !Z.pow_add_r by lia. f_equal. unfold w. lia. }
  assert (E2 : 2 ^ s * 2 ^ w = 2 ^ (ex + 1074) * 2 ^ 1074).
  { rewrite <- !Z.pow_add_r by lia. f_equal. unfold w, s. lia. }
  assert (Hpw : 0 < 2 ^ w) by (apply Z.pow_pos_nonneg; lia).
  set (Pk := 2 ^ k) in *. set (Pw := 2 ^ w) in *. set (Ps := 2 ^ s) in *.
  set (PU := 2 ^ (e' + k + 1074)) in *. set (Pb := 2 ^ (ey + 1074)) in *.
  set (Pa := 2 ^ (ex + 1074)) in *. set (P := 2 ^ 1074) in *.
  split; [exact Hm2|]. split; [exact Hmin|].
  split; [|split; [|split]].
  - replace ((2 * m2 - 1) * PU * (Zpos my * Pb))
      with ((2 * m2 - 1) * (Pk * Zpos my) * Pw)
      by (transitivity ((2 * m2 - 1) * Zpos my * (Pk * Pw)); [ring | rewrite E1; ring]).
    replace (2 * (Zpos mx * Pa * P)) with (2 * (Zpos mx * Ps) * Pw)
      by (transitivity (2 * Zpos mx * (Ps * Pw)); [ring | rewrite E2; ring]).
    apply Z.mul_le_mono_nonneg_r; [lia | exact B1].
  - replace ((m2 + 1) * PU * (Zpos my * Pb))
      with ((m2 + 1) * (Pk * Zpos my) * Pw)
      by (transitivity ((m2 + 1) * Zpos my * (Pk * Pw)); [ring | rewrite E1; ring]).
    replace (Zpos mx * Pa * P) with (Zpos mx * Ps * Pw)
      by (transitivity (Zpos mx * (Ps * Pw)); [ring | rewrite E2; ring]).
    apply Z.mul_lt_mono_pos_r; [lia | exact B2].
  - intros Hz0. specialize (Hz Hz0). lia.
  - exact Hres.
Qed.


Lemma Prim2SF_step : Prim2SF 0.01%float = S754_finite false 5764607523034235 (-59).
Proof. vm_compute. reflexivity. Qed.

Lemma scaled_step : scaled 0.01%float = 5764607523034235 * 2 ^ 1015.
Proof. vm_compute. reflexivity. Qed.

Lemma scaled_max_ratio : scaled 0.9%float = 8106479329266893 * 2 ^ 1021.
Proof. vm_compute. reflexivity. Qed.

Lemma pow2_split a b : 0 <= a -> 0 <= b -> 2 ^ (a + b) = 2 ^ a * 2 ^ b.
Proof. intros. apply Z.pow_add_r; lia. Qed.

Lemma encode_bracket (v : float) :
  float_finite v = true ->
  0 <= scaled v <= scaled 0.9%float ->
  exists t, py_int (v / 0.01)%float = Ok t /\ 0 <= t <= 90 /\
    (t * 2 ^ 46 - 1) * scaled 0.01%float <= scaled v * 2 ^ 46 /\
    scaled v < (t + 1) * scaled 0.01%float.
Proof.
  intros Hfin [Hlo Hhi].
  rewrite scaled_max_ratio in Hhi. rewrite scaled_step.
  unfold float_finite in Hfin. unfold py_int.
  destruct (Prim2SF v) as [s | s | | s mx ex] eqn:Hv; try discriminate.
  - (* v is a zero *)
    rewrite div_spec, Hv, Prim2SF_step.
    exists 0. unfold scaled in *. rewrite Hv in *.
    unfold SF64div, SFdiv, trunc_SF, scaled_SF.
    split; [reflexivity|]. lia.
  - destruct (Binary64.valid_finite v _ _ _ Hv) as (Hex & Hmx & _).
    assert (HPa : 0 < 2 ^ (ex + 1074)) by (apply Z.pow_pos_nonneg; lia).
    assert (HV : scaled v = cond_Zopp s (Zpos mx * 2 ^ (ex + 1074)))
      by (unfold scaled; rewrite Hv; reflexivity).
    destruct s.
    { exfalso. unfold cond_Zopp in HV. nia. }
    unfold cond_Zopp in HV.
    destruct (div_round_spec v 0.01%float mx ex _ _ Hv Prim2SF_step)
      as (m2 & e2 & Hm2 & He2 & B1 & B2 & Hz & Hres).
    rewrite Hres. rewrite scaled_step in B1, B2.
    set (V := scaled v) in *.
    assert (HU : 0 < 2 ^ (e2 + 1074)) by (apply Z.pow_pos_nonneg; lia).
    destruct m2 as [|m|m]; [| |lia]; unfold round_shape.
    + (* the quotient underflows to zero *)
      exists 0. split; [reflexivity|].
      specialize (Hz eq_refl).
      assert (Hd : Zdigits2 (Zpos mx) + ex <= 0).
      { pose proof (Zdigits2_bounds (Zpos mx) ltac:(lia)) as [Hd1 _].
        destruct (Z.le_gt_cases (Zdigits2 (Zpos mx) + ex) 0) as [|Hgt]; [assumption|].
        exfalso.
        assert (2 ^ 1074 <= 2 ^ (Zdigits2 (Zpos mx) - 1) * 2 ^ (ex + 1074)).
        { rewrite <- pow2_split by (simpl Zdigits2; lia).
          apply Z.pow_le_mono_r; lia. }
        assert (2 ^ (Zdigits2 (Zpos mx) - 1) * 2 ^ (ex + 1074) <= V).
        { rewrite HV. apply Z.mul_le_mono_nonneg_r; lia. }
        lia. }
      change (Zdigits2 5764607523034235) with 53 in Hz.
      assert (HU2 : 2 ^ (e2 + 1074) <= 2 ^ 1074) by (apply Z.pow_le_mono_r; lia).
      lia.
    + assert (Hfin2 : e2 <= 7).
      { destruct (Z.le_gt_cases e2 7) as [|Hgt]; [assumption|]. exfalso.
        assert (2 ^ 1082 <= 2 ^ (e2 + 1074)) by (apply Z.pow_le_mono_r; lia).
        nia. }
      destruct (Z.leb_spec e2 971) as [_|]; [|lia].
      pose proof Hres as Hres'. unfold round_shape in Hres'.
      destruct (Z.leb_spec e2 971) as [_|]; [|lia].
      destruct (Binary64.valid_finite _ _ _ _ Hres') as (_ & Hm53 & Hnorm).
      rewrite Binary64.trunc_SF_quot by lia.
      unfold scaled_SF, cond_Zopp.
      set (U := 2 ^ (e2 + 1074)) in *.
      set (Qs := Zpos m * U) in *.
      assert (HQs : U <= Qs) by (unfold Qs; nia).
      replace ((2 * Zpos m - 1) * U) with (2 * Qs - U) in B1 by (unfold Qs; ring).
      replace ((Zpos m + 1) * U) with (Qs + U) in B2 by (unfold Qs; ring).
      rewrite Z.quot_div_nonneg by lia.
      set (t := Qs / 2 ^ 1074).
      assert (Ht : t * 2 ^ 1074 <= Qs < (t + 1) * 2 ^ 1074).
      { unfold t. pose proof (Z.div_mod Qs (2 ^ 1074) ltac:(lia)).
        pose proof (Z.mod_pos_bound Qs (2 ^ 1074) ltac:(lia)). lia. }
      assert (Ht0 : 0 <= t) by (apply Z.div_pos; lia).
      assert (He45 : e2 <= -45).
      { destruct Hnorm as [-> | Hn]; [lia|].
        destruct (Z.le_gt_cases e2 (-45)) as [|Hgt]; [assumption|]. exfalso.
        assert (2 ^ 1030 <= U) by (apply Z.pow_le_mono_r; lia).
        assert (2 ^ 52 * U <= Qs) by (unfold Qs; nia).
        lia. }
      assert (HU29 : U <= 2 ^ 1029) by (apply Z.pow_le_mono_r; lia).
      assert (HG : 2 ^ 1074 = U * 2 ^ (- e2)).
      { unfold U. rewrite <- pow2_split by lia. f_equal. lia. }
      assert (Hup : Qs + U <= (t + 1) * 2 ^ 1074).
      { destruct Ht as [_ Ht]. rewrite HG in Ht |- *.
        assert (Zpos m < (t + 1) * 2 ^ (- e2)).
        { apply (Z.mul_lt_mono_pos_r U); [lia|]. fold Qs. lia. }
        unfold Qs. nia. }
      exists t. split; [reflexivity|].
      assert (Hlow : (t * 2 ^ 46 - 1) * (5764607523034235 * 2 ^ 1015) <= V * 2 ^ 46) by lia.
      split; [|split]; [|exact Hlow|]; lia.
Qed.


Lemma roundtrip_table :
  forallb roundtrip_check (map Z.of_nat (seq 0 91)) = true.
Proof. vm_compute. reflexivity. Qed.

Lemma roundtrip_check_range t : 0 <= t <= 90 -> roundtrip_check t = true.
Proof.
  intros Ht. pose proof roundtrip_table as Htab.
  rewrite forallb_forall in Htab. apply Htab.
  replace t with (Z.of_nat (Z.to_nat t)) by lia.
  apply in_map. apply in_seq. lia.
Qed.

Lemma unit_den_pow : Zpos unit_den = 2 ^ 1074.
Proof. vm_compute. reflexivity. Qed.

(** C1, amended: for every finite ratio [v] between 0 and the default upper
    bound 0.9, encoding succeeds with a token [t] of the default range
    [0..90], decoding [t] succeeds, and the decoded ratio [r] satisfies
    [v - 0.01 - 2^-52 < r <= v + 2^-52]: the round trip loses less than one
    whole quantization step (not half a step), up to the rounding of
    binary64 arithmetic. *)
Theorem roundtrip_within_one_step (v : float) :
  float_finite v = true ->
  (0 <= F2Q v)%Q -> (F2Q v <= F2Q 0.9%float)%Q ->
  exists t r,
    _ratios2tokens (PyList [PyFloat v]) = Ok [t] /\
    _tokens2ratios [t] = Ok [r] /\
    0 <= t <= 90 /\
    (F2Q v - (1 # 100) - slack < F2Q r)%Q /\
    (F2Q r <= F2Q v + slack)%Q.
Proof.
  intros Hfin Hlo Hhi.
  pose proof unit_den_pow as HP.
  assert (HPpos : 0 < 2 ^ 1074) by (apply Z.pow_pos_nonneg; lia).
  assert (Hb : 0 <= scaled v <= scaled 0.9%float).
  { unfold Qle, F2Q in Hlo, Hhi. cbn [Qnum Qden] in Hlo, Hhi.
    rewrite HP in Hhi. split; [lia|].
    apply (Z.mul_le_mono_pos_r _ _ (2 ^ 1074)); assumption. }
  destruct (encode_bracket v Hfin Hb) as (t & Henc & Ht & Hlow & Hup).
  pose proof (roundtrip_check_range t Ht) as Hchk.
  unfold roundtrip_check in Hchk.
  destruct (_tokens2ratios [t]) as [[|r [|? ?]]|] eqn:Hdec; try discriminate.
  apply andb_true_iff in Hchk as [Hchk H3].
  apply andb_true_iff in Hchk as [H1 H2].
  apply Z.leb_le in H2, H3.
  exists t, r. split; [|split; [exact Hdec|split; [exact Ht|]]].
  - unfold _ratios2tokens, comprehension, py_truediv.
    change (PrimFloat.eqb 0.01 0) with false. cbv beta iota.
    unfold rbind. rewrite Henc. reflexivity.
  - set (V := scaled v) in *. set (R := scaled r) in *.
    set (C := scaled 0.01%float) in *.
    unfold Qlt, Qle, Qminus, Qplus, Qopp, F2Q, slack.
    cbn [Qnum Qden]. fold V R.
    rewrite !Pos2Z.inj_mul, HP.
    set (P := 2 ^ 1074) in *.
    change (Zpos 4503599627370496) with (2 ^ 52).
    split; nia.
Qed.


Lemma py_int_finite (q : float) :
  float_finite q = true -> py_int q = Ok (trunc_token q).
Proof.
  unfold float_finite, py_int, trunc_token, scaled.
  destruct (Prim2SF q) as [s | s | | s m e] eqn:Hq; try discriminate; intros _.
  - reflexivity.
  - destruct (Binary64.valid_finite q _ _ _ Hq) as (He & _).
    f_equal. apply Binary64.trunc_SF_quot. lia.
Qed.

Lemma py_int_Ok_finite (q : float) t : py_int q = Ok t -> float_finite q = true.
Proof.
  unfold py_int, float_finite. destruct (Prim2SF q); intros; try discriminate; reflexivity.
Qed.

Lemma ratios2tokens_floats (l : list float) :
  Forall (fun v => float_finite (v / 0.01)%float = true) l ->
  _ratios2tokens (PyList (map PyFloat l))
  = Ok (map (fun v => trunc_token (v / 0.01)%float) l).
Proof.
  unfold _ratios2tokens. induction 1 as [|v l Hv Hl IH]; [reflexivity|].
  cbn [map comprehension]. unfold py_truediv at 1.
  change (PrimFloat.eqb 0.01 0) with false. cbv beta iota.
  unfold rbind at 2. rewrite (py_int_finite _ Hv).
  unfold rbind at 1. rewrite IH. reflexivity.
Qed.

(** C2, as stated, fails: 0.006 encodes to [int(0.6) = 0], whereas
    [round(0.006 / 0.01) = 1]. *)
Lemma ratios2tokens_is_not_round :
  _ratios2tokens (PyList [PyFloat 0.006]) = Ok [0] /\
  spec_ratio_to_token 0.006 0.01 = Ok 1.
Proof. split; vm_compute; reflexivity. Qed.

(** C2, amended: [_ratios2tokens] maps every ratio to [int(value / 0.01)],
    the binary64 quotient truncated toward zero ([Z.quot]); with
    [min_ratios=[0]] and [max_ratios=[0.9]] the range table is
    [([0],[90])], and 0.30 encodes to 30. *)
Theorem ratios2tokens_truncates (l : list float)
    (Hfin : Forall (fun v => float_finite (v / 0.01)%float = true) l) :
  _ratios2tokens (PyList (map PyFloat l))
  = Ok (map (fun v => Z.quot (scaled (v / 0.01)%float) (2 ^ 1074)) l) /\
  _get_range_table (PyList [PyInt 0]) (PyList [PyFloat 0.9]) = Ok ([0], [90]) /\
  _ratios2tokens (PyList [PyFloat 0.30]) = Ok [30].
Proof.
  split; [exact (ratios2tokens_floats l Hfin)|].
  split; vm_compute; reflexivity.
Qed.

Lemma ratios2tokens_truncates_witness :
  _ratios2tokens (PyList (map PyFloat [0.006; 0.299; -0.015]%float)) = Ok [0; 29; -1].
Proof.
  assert (H : Forall (fun v => float_finite (v / 0.01)%float = true)
                     [0.006; 0.299; -0.015]%float)
    by (repeat constructor).
  destruct (ratios2tokens_truncates _ H) as [E _].
  rewrite E. vm_compute. reflexivity.
Defined.


Lemma py_float_of_int_error z e :
  py_float_of_int z = Raise e -> e = OverflowError.
Proof.
  unfold py_float_of_int. destruct (Prim2SF (Z2F z)); intros H; inversion H; reflexivity.
Qed.

Lemma py_int_error q e : py_int q = Raise e -> e = ValueError \/ e = OverflowError.
Proof.
  unfold py_int. destruct (Prim2SF q); intros H; inversion H; auto.
Qed.

Lemma encode_one_error ratio e :
  (q <- py_truediv ratio 0.01%float ;; py_int q)%result = Raise e ->
  encoding_error e.
Proof.
  unfold py_truediv, encoding_error.
  change (PrimFloat.eqb 0.01 0) with false. cbv beta iota.
  destruct ratio as [| z | f | s | l]; cbn [rbind].
  - intros H; inversion H; auto.
  - destruct (py_float_of_int z) eqn:Hz; cbn [rbind].
    + intros H. apply py_int_error in H. tauto.
    + intros H; inversion H; subst. apply py_float_of_int_error in Hz. auto.
  - intros H. apply py_int_error in H. tauto.
  - intros H; inversion H; auto.
  - intros H; inversion H; auto.
Qed.

Lemma comprehension_error {A B} (f : A -> result B) (P : pyexn -> Prop) l e :
  (forall x e, f x = Raise e -> P e) ->
  comprehension f l = Raise e -> P e.
Proof.
  intros Hf. induction l as [|x l IH]; cbn [comprehension]; [discriminate|].
  destruct (f x) eqn:Hx; cbn [rbind].
  - destruct (comprehension f l); cbn [rbind]; [discriminate|].
    intros H; inversion H; subst. apply IH. reflexivity.
  - intros H; inversion H; subst. eapply Hf; eauto.
Qed.

Lemma ratios2tokens_error ratios e :
  _ratios2tokens ratios = Raise e -> encoding_error e.
Proof.
  unfold _ratios2tokens. destruct ratios as [| z | f | s | l].
  1-3: (intros H; inversion H; left; reflexivity).
  - destruct (String.eqb s ""); intros H; inversion H; left; reflexivity.
  - apply comprehension_error. intros x e0. apply encode_one_error.
Qed.

(** C4, as stated, fails: with the minimum 0.9 above the maximum 0.1 the
    table [([90],[10])] is built and no error is raised. *)
Lemma range_table_accepts_inverted_bounds :
  PrimFloat.ltb 0.1 0.9 = true /\
  _get_range_table (PyList [PyFloat 0.9]) (PyList [PyFloat 0.1]) = Ok ([90], [10]).
Proof. split; vm_compute; reflexivity. Qed.

(** C4, amended: [_get_range_table] compares no minimum with any maximum:
    whenever both lists encode, it returns the pair of encoded vectors,
    whatever their order; the only errors it raises are [AssertionError]
    (a bound that is neither a list nor a float) and the errors of the
    encoding ([TypeError], [ValueError], [OverflowError]). *)
Theorem range_table_no_bounds_check (lmin lmax : list pyval) (a b : list Z)
    (Ha : _ratios2tokens (PyList lmin) = Ok a)
    (Hb : _ratios2tokens (PyList lmax) = Ok b) :
  _get_range_table (PyList lmin) (PyList lmax) = Ok (a, b) /\
  forall min_ratios max_ratios e,
    _get_range_table min_ratios max_ratios = Raise e ->
    e = AssertionError \/ encoding_error e.
Proof.
  split.
  - unfold _get_range_table. cbn [isinstance_list orb py_assert rbind].
    rewrite Ha, Hb. reflexivity.
  - intros x y e. unfold _get_range_table.
    destruct (isinstance_list x || isinstance_float x); cbn [py_assert rbind];
      [|intros H; inversion H; auto].
    destruct (isinstance_list y || isinstance_float y); cbn [py_assert rbind];
      [|intros H; inversion H; auto].
    destruct (_ratios2tokens (if isinstance_list x then x else PyList [x])) eqn:E1;
      cbn [rbind].
    + destruct (_ratios2tokens (if isinstance_list y then y else PyList [y])) eqn:E2;
        cbn [rbind]; [discriminate|].
      intros H; inversion H; subst. right. eapply ratios2tokens_error; eauto.
    + intros H; inversion H; subst. right. eapply ratios2tokens_error; eauto.
Qed.

Lemma range_table_no_bounds_check_witness :
  _get_range_table (PyList [PyFloat 0.9; PyFloat 0.5]) (PyList [PyFloat 0.1; PyFloat 0.7])
  = Ok ([90; 50], [10; 70]).
Proof.
  apply (range_table_no_bounds_check
           [PyFloat 0.9; PyFloat 0.5] [PyFloat 0.1; PyFloat 0.7]
           [90; 50] [10; 70]); vm_compute; reflexivity.
Defined.

(** C5, amended: a scalar (float) bound is wrapped in a one-element list:
    its side of the range table is the single encoded token, whatever the
    number of parameters and the length of the other bound. *)
Theorem scalar_bound_single_entry (s : float) (lother : list pyval) (b : list Z)
    (Hs : float_finite (s / 0.01)%float = true)
    (Hb : _ratios2tokens (PyList lother) = Ok b) :
  _get_range_table (PyFloat s) (PyList lother)
  = Ok ([Z.quot (scaled (s / 0.01)%float) (2 ^ 1074)], b) /\
  _get_range_table (PyList lother) (PyFloat s)
  = Ok (b, [Z.quot (scaled (s / 0.01)%float) (2 ^ 1074)]) /\
  _get_range_table (PyFloat s) (PyFloat s)
  = Ok ([Z.quot (scaled (s / 0.01)%float) (2 ^ 1074)],
        [Z.quot (scaled (s / 0.01)%float) (2 ^ 1074)]).
Proof.
  assert (E := ratios2tokens_floats [s] ltac:(repeat constructor; exact Hs)).
  cbn [map] in E. fold (trunc_token (s / 0.01)) .
  unfold _get_range_table. cbn [isinstance_list isinstance_float orb py_assert rbind].
  rewrite E, Hb. cbn [rbind]. auto.
Qed.

Lemma scalar_bound_single_entry_witness :
  _get_range_table (PyFloat 0.25) (PyList [PyFloat 0.9; PyFloat 0.8; PyFloat 0.7])
  = Ok ([25], [90; 80; 70]).
Proof.
  destruct (scalar_bound_single_entry 0.25
              [PyFloat 0.9; PyFloat 0.8; PyFloat 0.7] [90; 80; 70]
              ltac:(vm_compute; reflexivity) ltac:(vm_compute; reflexivity))
    as [E _].
  rewrite E. vm_compute. reflexivity.
Defined.

(** C5, as stated, fails: built with two parameters and the scalar bounds
    0.0 and 0.9, the object holds the range table [([0],[90])], one entry
    per bound and not one per parameter. *)
Lemma scalar_bound_not_broadcast :
  match __init__ (with_bounds (PyFloat 0) (PyFloat 0.9) demo_args) with
  | Ok obj =>
      length (_params obj) = 2%nat /\
      _range_table obj = ([0], [90]) /\
      length (fst (_range_table obj)) <> length (_params obj)
  | Raise _ => False
  end.
Proof.
  vm_compute. (repeat split; try reflexivity). (intros H; discriminate H).
Qed.


Section Constructor.
Context `{Externals}.

(** The constructor up to the point where the latency is measured. *)
Lemma init_latency_branch (a : init_args) :
  py_truthy (a_pruned_latency a) = true ->
  __init__ a =
  match _get_range_table (a_min_ratios a) (a_max_ratios a) with
  | Ok _ => Raise (NameError "latency")
  | Raise e => Raise e
  end.
Proof.
  intros Hl. unfold __init__.
  destruct (_get_range_table (a_min_ratios a) (a_max_ratios a)); cbn [rbind];
    [|reflexivity].
  rewrite Hl. reflexivity.
Qed.

(** C9, amended: with a true [pruned_latency] the constructor never returns
    an object; it raises [NameError] for the unbound name [latency] when the
    range table, which is built first, is built, and otherwise the exception
    of the range table. *)
Theorem init_with_latency_fails (a : init_args)
    (Hl : py_truthy (a_pruned_latency a) = true) :
  (forall obj, __init__ a <> Ok obj) /\
  (forall table,
     _get_range_table (a_min_ratios a) (a_max_ratios a) = Ok table ->
     __init__ a = Raise (NameError "latency")) /\
  (forall e,
     _get_range_table (a_min_ratios a) (a_max_ratios a) = Raise e ->
     __init__ a = Raise e).
Proof.
  rewrite (init_latency_branch a Hl).
  destruct (_get_range_table (a_min_ratios a) (a_max_ratios a)).
  - split; [discriminate|]. split; [reflexivity|discriminate].
  - split; [discriminate|]. split; [discriminate|].
    intros e0 E. inversion E. reflexivity.
Qed.

(** C8: [_get_init_ratios] returns [None], which [_ratios2tokens] cannot
    iterate; with [init_ratios=None] the constructor never returns an
    object: it raises, and what it raises once the range table is built and
    no latency is requested is the [NameError] of the call's argument
    [_program]. *)
Theorem init_without_init_ratios_fails (a : init_args)
    (Hn : a_init_ratios a = PyNone) :
  _get_init_ratios (a_program a) (a_params a) (a_pruned_flops a)
                   (a_pruned_latency a) = PyNone /\
  _ratios2tokens PyNone = Raise TypeError /\
  (forall obj, __init__ a <> Ok obj) /\
  (forall table,
     _get_range_table (a_min_ratios a) (a_max_ratios a) = Ok table ->
     py_truthy (a_pruned_latency a) = false ->
     __init__ a = Raise (NameError "_program")).
Proof.
  split; [reflexivity|]. split; [reflexivity|].
  unfold __init__. rewrite Hn.
  destruct (_get_range_table (a_min_ratios a) (a_max_ratios a)); cbn [rbind].
  - destruct (py_truthy (a_pruned_latency a)); cbn [rbind].
    + split; [discriminate|]. intros ? _ Hf. discriminate Hf.
    + split; [discriminate|]. reflexivity.
  - split; [discriminate|]. intros ? Hf. discriminate Hf.
Qed.

(** C7: when the constructor gets as far as the server (the range table
    and the initial tokens are built, no latency is requested, initial
    ratios are given), the [ControllerServer] receives the port unchanged
    and, as host, the resolved local IP when the configured host is [None]
    or [""], the configured host otherwise. *)
Theorem init_resolves_empty_host (a : init_args) (table : list Z * list Z)
    (init_tokens : list Z)
    (Ht : _get_range_table (a_min_ratios a) (a_max_ratios a) = Ok table)
    (Hl : py_truthy (a_pruned_latency a) = false)
    (Hr : a_init_ratios a <> PyNone)
    (Hi : _ratios2tokens (a_init_ratios a) = Ok init_tokens) :
  exists obj,
    __init__ a = Ok obj /\
    snd (cs_address (_controller_server obj)) = snd (a_server_addr a) /\
    (fst (a_server_addr a) = None \/ fst (a_server_addr a) = Some EmptyString ->
     fst (cs_address (_controller_server obj))
     = socket_gethostbyname socket_gethostname) /\
    (forall host, fst (a_server_addr a) = Some host -> host <> EmptyString ->
     fst (cs_address (_controller_server obj)) = host).
Proof.
  unfold __init__. rewrite Ht. cbn [rbind]. rewrite Hl. cbn [rbind].
  destruct (a_init_ratios a) eqn:Er; [congruence| | | |];
    cbn [rbind]; rewrite Hi; cbn [rbind];
    destruct (a_server_addr a) as [ip port]; cbn [fst snd];
    (eexists; split; [reflexivity|]; cbn [_controller_server cs_address fst snd];
     split; [reflexivity|]; split;
     [ intros [-> | ->]; reflexivity
     | intros host -> Hne; unfold host_is_empty;
       destruct (String.eqb_spec host ""); [congruence | reflexivity] ]).
Qed.

End Constructor.

Lemma init_with_latency_fails_witness :
  __init__ (with_pruned_latency (PyFloat 0.5) demo_args)
  = Raise (NameError "latency").
Proof.
  destruct (init_with_latency_fails
              (with_pruned_latency (PyFloat 0.5) demo_args)
              ltac:(vm_compute; reflexivity)) as (_ & Hn & _).
  apply (Hn ([0], [90])). vm_compute. reflexivity.
Defined.

(** C9, as stated, fails for some inputs: with a true [pruned_latency] and
    the integer [0] as [min_ratios], the constructor raises the
    [AssertionError] of [_get_range_table], which runs before the latency
    branch, and no [NameError]. *)
Lemma init_with_latency_other_error :
  py_truthy (PyFloat 0.5) = true /\
  __init__ (with_bounds (PyInt 0) (PyList [PyFloat 0.9])
              (with_pruned_latency (PyFloat 0.5) demo_args))
  = Raise AssertionError.
Proof. split; [vm_compute; reflexivity | reflexivity]. Qed.

Lemma init_without_init_ratios_fails_witness :
  __init__ (with_init_ratios PyNone demo_args) = Raise (NameError "_program").
Proof.
  destruct (init_without_init_ratios_fails
              (with_init_ratios PyNone demo_args) eq_refl) as (_ & _ & _ & Hn).
  apply (Hn ([0], [90])); vm_compute; reflexivity.
Defined.

Lemma init_resolves_empty_host_witness :
  exists obj,
    __init__ demo_args = Ok obj /\
    cs_address (_controller_server obj) = ("10.0.0.7"%string, 0).
Proof.
  destruct (init_resolves_empty_host demo_args ([0], [90]) [50; 50]
              ltac:(vm_compute; reflexivity) ltac:(vm_compute; reflexivity)
              ltac:(discriminate) ltac:(vm_compute; reflexivity))
    as (obj & Hobj & Hport & Hempty & _).
  exists obj. split; [exact Hobj|].
  specialize (Hempty (or_intror eq_refl)).
  destruct (cs_address (_controller_server obj)) as [ip port].
  cbn [fst snd] in *. rewrite Hempty, Hport. reflexivity.
Defined.


Section Loop.
Context `{Externals}.

Lemma dict_get_map {V : Type} (d : list (string * V)) (k : string) :
  dict_get d k = dict_map d !! k.
Proof.
  unfold dict_map. induction d as [|[k' v] d IH]; [reflexivity|].
  cbn [dict_get list_to_map foldr].
  destruct (String.eqb_spec k' k) as [-> | Hne].
  - rewrite lookup_insert_eq. reflexivity.
  - rewrite lookup_insert_ne by exact Hne. exact IH.
Qed.

Lemma dict_get_keys {V : Type} (d : list (string * V)) (k : string) :
  k ∈ dict_keys d <-> is_Some (dict_get d k).
Proof.
  unfold dict_keys. induction d as [|[k' v] d IH]; cbn [map fst dict_get].
  - split; [intros Hin; inversion Hin | intros [? Hx]; discriminate Hx].
  - rewrite elem_of_cons. destruct (String.eqb_spec k' k) as [-> | Hne].
    + split; [eauto | auto].
    + rewrite <- IH. split; [intros [Heq | Hin]; [congruence | exact Hin] | auto].
Qed.

Lemma dict_keys_dom {V : Type} (d : list (string * V)) (k : string) :
  k ∈ dict_keys d <-> k ∈ dom (dict_map d).
Proof.
  rewrite dict_get_keys, dict_get_map, elem_of_dom. reflexivity.
Qed.

Lemma restore_keys_other backup ks : forall sc name,
  name ∉ ks -> restore_keys backup sc ks !! name = sc !! name.
Proof.
  induction ks as [|k ks IH]; intros sc name Hnot; [reflexivity|].
  apply not_elem_of_cons in Hnot as [Hne Hnot].
  cbn [restore_keys foldl].
  change (foldl _ ?m ks) with (restore_keys backup m ks).
  rewrite (IH _ _ Hnot).
  destruct (dict_get backup k); [apply lookup_insert_ne; congruence | reflexivity].
Qed.

Lemma restore_keys_written backup ks : forall sc name value,
  name ∈ ks -> dict_get backup name = Some value ->
  restore_keys backup sc ks !! name = Some value.
Proof.
  induction ks as [|k ks IH]; intros sc name value Hin Hget; [inversion Hin|].
  cbn [restore_keys foldl].
  change (foldl _ ?m ks) with (restore_keys backup m ks).
  destruct (decide (name ∈ ks)) as [Hks | Hks]; [apply IH; assumption|].
  apply elem_of_cons in Hin as [-> | Hin]; [|contradiction].
  rewrite (restore_keys_other _ _ _ _ Hks), Hget. apply lookup_insert_eq.
Qed.

Lemma restore_keys_union (backup : list (string * Tensor)) sc :
  restore_keys backup sc (dict_keys backup) = dict_map backup ∪ sc.
Proof.
  apply map_eq. intros name. rewrite lookup_union.
  destruct (decide (name ∈ dict_keys backup)) as [Hin | Hnot].
  - destruct (proj1 (dict_get_keys backup name) Hin) as [v Hv].
    rewrite (restore_keys_written _ _ _ _ _ Hin Hv).
    rewrite <- dict_get_map, Hv. destruct (sc !! name); reflexivity.
  - rewrite (restore_keys_other _ _ _ _ Hnot).
    assert (Hnone : dict_get backup name = None).
    { destruct (dict_get backup name) eqn:E; [|reflexivity].
      exfalso. apply Hnot. apply dict_get_keys. eauto. }
    rewrite <- dict_get_map, Hnone. destruct (sc !! name); reflexivity.
Qed.


Lemma for_each_restore backup (ks : list string) : forall h,
  (forall k, k ∈ ks -> k ∈ dom (scope h)) ->
  (forall k, k ∈ ks -> is_Some (dict_get backup k)) ->
  for_each (restore_one backup) ks h =
  (Ok tt, {| self := self h; scope := restore_keys backup (scope h) ks;
             replies := replies h;
             trace := trace h ++ restore_events backup ks |}).
Proof.
  induction ks as [|k ks IH]; intros h Hdom Hget.
  - cbn. rewrite app_nil_r. destruct h; reflexivity.
  - cbn [for_each]. unfold bind at 1. unfold restore_one at 1.
    unfold bind at 1. unfold get_scope at 1.
    assert (Hk : k ∈ dom (scope h)) by (apply Hdom; left).
    apply elem_of_dom in Hk as [old Hold]. rewrite Hold.
    destruct (Hget k ltac:(left)) as [v Hv]. rewrite Hv.
    unfold bind at 1. unfold set_scope at 1. unfold emit at 1.
    cbn [self scope replies trace].
    rewrite IH.
    + cbn [self scope replies trace restore_keys restore_events foldl omap
           list_omap].
      rewrite Hv. rewrite <- app_assoc. reflexivity.
    + cbn [scope]. intros k' Hin. rewrite dom_insert.
      apply elem_of_union_r. apply Hdom. right. exact Hin.
    + intros k' Hin. apply Hget. right. exact Hin.
Qed.

(** [_restore] alone. *)
Lemma restore_spec (h : heap) :
  dom (dict_map (_param_backup (self h))) ⊆ dom (scope h) ->
  _restore h =
  (Ok tt, {| self := self h;
             scope := dict_map (_param_backup (self h)) ∪ scope h;
             replies := replies h;
             trace := trace h ++ restore_trace (_param_backup (self h)) |}).
Proof.
  intros Hdom. unfold _restore, bind, get_self.
  rewrite for_each_restore.
  - rewrite restore_keys_union. reflexivity.
  - intros k Hin. apply Hdom. apply dict_keys_dom. exact Hin.
  - intros k Hin. apply dict_get_keys. exact Hin.
Qed.

(** [reward], step by step. *)
Lemma reward_eq (h : heap) (score : float) :
  dom (dict_map (_param_backup (self h))) ⊆ dom (scope h) ->
  reward score h =
  let h1 := {| self := with_param_backup [] (self h);
               scope := dict_map (_param_backup (self h)) ∪ scope h;
               replies := replies h;
               trace := trace h ++ restore_trace (_param_backup (self h)) |} in
  match _current_ratios (self h) with
  | None => (Raise (AttributeError "_current_ratios"), h1)
  | Some ratios =>
      match _ratios2tokens (PyList (map PyFloat ratios)) with
      | Raise e => (Raise e, h1)
      | Ok tokens =>
          (Ok tt, {| self := with_iter (_iter (self h) + 1) (self h1);
                     scope := scope h1; replies := replies h1;
                     trace := trace h1 ++ [EvUpdate tokens score] |})
      end
  end.
Proof.
  intros Hdom. unfold reward. unfold bind at 1. rewrite (restore_spec h Hdom).
  unfold bind, get_self, set_self, ret, raise, lift, client_update, emit.
  cbn [self scope replies trace with_param_backup _current_ratios
       _param_backup _iter with_iter].
  destruct (_current_ratios (self h)) as [ratios|]; [|reflexivity].
  destruct (_ratios2tokens (PyList (map PyFloat ratios))); reflexivity.
Qed.



End Loop.


(** The exact comparison of an integer with a finite float. *)
Lemma int_lt_float_spec (a : Z) (f : float) :
  float_finite f = true ->
  int_lt_float a f = true <-> (inject_Z a < F2Q f)%Q.
Proof.
  unfold float_finite, int_lt_float, F2Q, scaled, Qlt, inject_Z.
  cbn [Qnum Qden]. rewrite unit_den_pow, Z.mul_1_r.
  destruct (Prim2SF f); try discriminate; intros _; apply Z.ltb_lt.
Qed.

Section Constraint.
Context `{Externals}.

(** C10: for tokens that decode, with [_base_flops] set, a float
    [pruned_flops] and a finite target [base_flops * (1 - pruned_flops)],
    [_constrain_func] returns [true] exactly when the FLOPs of the graph
    pruned with the decoded ratios are strictly below the target, compared
    as exact numbers; at equality it returns [false]. *)
Theorem constrain_func_strict (h : heap) (tokens : list Z)
    (ratios : list float) (base : Z) (pf : float)
    (Hdec : _tokens2ratios tokens = Ok ratios)
    (Hbase : _base_flops (self h) = Some base)
    (Hpf : _pruned_flops (self h) = PyFloat pf)
    (Hconv : float_finite (Z2F base) = true)
    (Hfin : float_finite (Z2F base * (1 - pf))%float = true) :
  let target := (Z2F base * (1 - pf))%float in
  let count := flops (pruned_graph h ratios) in
  exists b,
    fst (_constrain_func tokens h) = Ok b /\
    (b = true <-> (inject_Z count < F2Q target)%Q) /\
    ((inject_Z count == F2Q target)%Q -> b = false).
Proof.
  intros target count.
  exists (int_lt_float count target).
  assert (Hspec := int_lt_float_spec count target Hfin).
  split; [|split; [exact Hspec|]].
  - unfold _constrain_func, bind, lift, get_self, get_scope, set_scope, ret.
    rewrite Hdec.
    unfold count, target, pruned_graph.
    destruct (Pruner_prune (_program (self h)) (scope h) (_params (self h))
                           ratios (_place (self h)) true None)
      as [[pruned sc'] backup'].
    cbn [self _base_flops _pruned_flops fst snd].
    rewrite Hbase, Hpf. cbn [py_rsub_one py_mul_int].
    unfold py_float_of_int.
    unfold float_finite in Hconv.
    destruct (Prim2SF (Z2F base)); try discriminate; reflexivity.
  - intros Heq. destruct (int_lt_float count target); [|reflexivity].
    exfalso. assert (E := proj1 Hspec eq_refl).
    rewrite Heq in E. exact (Qlt_irrefl _ E).
Qed.

End Constraint.

(** C1, as stated, fails: the in-range ratio 0.006 encodes to token 0, which
    decodes to 0.0, at distance 0.006 > 0.005 = step / 2. *)
Lemma roundtrip_exceeds_half_step :
  float_finite 0.006 = true /\
  (0 <= F2Q 0.006)%Q /\ (F2Q 0.006 <= F2Q 0.9)%Q /\
  _ratios2tokens (PyList [PyFloat 0.006]) = Ok [0] /\
  _tokens2ratios [0] = Ok [0%float] /\
  (1 # 200 < Qabs (F2Q 0 - F2Q 0.006))%Q.
Proof.
  split; [vm_compute; reflexivity|].
  split; [unfold Qle; vm_compute; discriminate|].
  split; [unfold Qle; vm_compute; discriminate|].
  split; [vm_compute; reflexivity|].
  split; [vm_compute; reflexivity|].
  unfold Qlt. vm_compute. reflexivity.
Qed.

Lemma roundtrip_within_one_step_witness :
  exists t r,
    _ratios2tokens (PyList [PyFloat 0.29]) = Ok [t] /\
    _tokens2ratios [t] = Ok [r] /\
    0 <= t <= 90 /\
    (F2Q 0.29 - (1 # 100) - slack < F2Q r)%Q /\
    (F2Q r <= F2Q 0.29 + slack)%Q.
Proof.
  apply (roundtrip_within_one_step 0.29).
  - vm_compute. reflexivity.
  - unfold Qle. vm_compute. discriminate.
  - unfold Qle. vm_compute. discriminate.
Defined.

(** C3, on the code: the server answers [[29; 30]] to [next_tokens()];
    [prune] decodes it and [reward] re-encodes the decoded ratios, sending
    [update([28; 30], score)]: not the token vector that was issued. *)
Theorem reward_reports_other_tokens :
  __init__ demo_args = Ok demo_object /\
  fst (run_trial 1000 0.75 (demo_heap [[29; 30]])) = Ok tt /\
  trace (snd (run_trial 1000 0.75 (demo_heap [[29; 30]])))
  = [EvNextTokens [29; 30];
     EvSetTensor "conv1_weights" 11; EvSetTensor "conv2_weights" 22;
     EvUpdate [28; 30] 0.75].
Proof. repeat split; vm_compute; reflexivity. Qed.


(** A variable the trial changed and the backup does not name keeps the
    changed value through [reward]. *)
Lemma reward_keeps_unrecorded_change :
  demo_scope !! "fc_weights"%string = Some 33 /\
  dict_get (_param_backup (self demo_tuned_trial)) "fc_weights" = None /\
  fst (reward 0.75 demo_tuned_trial) = Ok tt /\
  scope (snd (reward 0.75 demo_tuned_trial)) !! "fc_weights"%string = Some 34.
Proof. repeat split. Qed.


Lemma constrain_func_strict_witness :
  fst (_constrain_func [50; 0] (demo_heap [])) = Ok false /\
  fst (_constrain_func [51; 0] (demo_heap [])) = Ok true.
Proof.
  split.
  - pose proof (constrain_func_strict (demo_heap []) [50; 0] [0.5; 0]%float
                  1000 0.5 ltac:(vm_compute; reflexivity) eq_refl eq_refl
                  ltac:(vm_compute; reflexivity) ltac:(vm_compute; reflexivity))
      as W.
    cbv zeta in W. destruct W as (b & Hb & _ & Hexact).
    rewrite Hb. f_equal. apply Hexact. unfold Qeq. vm_compute. reflexivity.
  - pose proof (constrain_func_strict (demo_heap []) [51; 0] [0.51; 0]%float
                  1000 0.5 ltac:(vm_compute; reflexivity) eq_refl eq_refl
                  ltac:(vm_compute; reflexivity) ltac:(vm_compute; reflexivity))
      as W.
    cbv zeta in W. destruct W as (b & Hb & Hiff & _).
    rewrite Hb. f_equal. apply Hiff. unfold Qlt. vm_compute. reflexivity.
Defined.

(* ================================================================== *)
(** * Further properties of the encoding, the constructor and the loop *)

(** The re-encoding of every token of [0..100], computed. *)
Lemma reencode_table :
  forallb (fun t => match reencode t with
                    | Ok [t'] => t' =? reencoded_token t
                    | _ => false
                    end)
          (map Z.of_nat (seq 0 101)) = true.
Proof. vm_compute. reflexivity. Qed.

(** X1: decoding a token of [0..100] and encoding the ratio again gives the
    token back except for 29, 58 and 59, which come back one lower: among
    these tokens [_ratios2tokens] inverts [_tokens2ratios] exactly when the
    token is none of the three. *)
Theorem reencode_misses_three_tokens (t : Z) (Ht : 0 <= t <= 100) :
  reencode t = Ok [reencoded_token t] /\
  (reencode t = Ok [t] <-> t <> 29 /\ t <> 58 /\ t <> 59).
Proof.
  assert (E : reencode t = Ok [reencoded_token t]).
  { pose proof reencode_table as Htab. rewrite forallb_forall in Htab.
    specialize (Htab t).
    assert (Hin : In t (map Z.of_nat (seq 0 101))).
    { replace t with (Z.of_nat (Z.to_nat t)) by lia.
      apply in_map. apply in_seq. lia. }
    specialize (Htab Hin).
    destruct (reencode t) as [[|t' [|? ?]]|]; try discriminate.
    apply Z.eqb_eq in Htab. subst t'. reflexivity. }
  split; [exact E|]. rewrite E. unfold reencoded_token.
  destruct (Z.eqb_spec t 29), (Z.eqb_spec t 58), (Z.eqb_spec t 59);
    cbn [orb]; split; intros Hx; try (inversion Hx; lia); try lia; reflexivity.
Qed.

Lemma reencode_misses_three_tokens_witness :
  reencode 58 = Ok [57] /\ reencode 60 = Ok [60].
Proof.
  split.
  - destruct (reencode_misses_three_tokens 58 ltac:(lia)) as [E _]. exact E.
  - destruct (reencode_misses_three_tokens 60 ltac:(lia)) as [E _]. exact E.
Defined.

Lemma comprehension_ok_inv {A B} (f : A -> result B) x l ys :
  comprehension f (x :: l) = Ok ys ->
  exists y ys', f x = Ok y /\ comprehension f l = Ok ys' /\ ys = y :: ys'.
Proof.
  cbn [comprehension]. destruct (f x) as [y|]; cbn [rbind]; [|discriminate].
  destruct (comprehension f l) as [ys'|]; cbn [rbind]; [|discriminate].
  intros E. inversion E. eauto.
Qed.

(** X2: on a list of floats [_ratios2tokens] returns exactly when every
    quotient [ratio / 0.01] is finite: a NaN, an infinity or a ratio so
    large that the quotient overflows makes the whole call raise. *)
Theorem ratios2tokens_succeeds_iff_finite (l : list float) :
  (exists tokens, _ratios2tokens (PyList (map PyFloat l)) = Ok tokens) <->
  Forall (fun v => float_finite (v / 0.01)%float = true) l.
Proof.
  split.
  - intros [tokens E]. revert tokens E. unfold _ratios2tokens.
    induction l as [|v l IH]; intros tokens E; [constructor|].
    cbn [map] in E. apply comprehension_ok_inv in E as (y & ys & Hy & Hys & _).
    constructor; [|eapply IH; exact Hys].
    unfold py_truediv in Hy. change (PrimFloat.eqb 0.01 0) with false in Hy.
    cbn [rbind] in Hy. eapply py_int_Ok_finite. exact Hy.
  - intros Hfin. eexists. apply ratios2tokens_floats. exact Hfin.
Qed.

Lemma comprehension_length {A B} (f : A -> result B) l ys :
  comprehension f l = Ok ys -> length ys = length l.
Proof.
  revert ys. induction l as [|x l IH]; intros ys E.
  - inversion E. reflexivity.
  - apply comprehension_ok_inv in E as (y & ys' & _ & Hys & ->).
    cbn [length]. f_equal. apply IH. exact Hys.
Qed.

(** X3: a range table built from two lists has one minimum token per
    minimum ratio and one maximum token per maximum ratio, each side the
    encoding of its own list: the two sides are never required to have the
    same length. *)
Theorem range_table_lengths (lmin lmax : list pyval) (lo hi : list Z)
    (Ht : _get_range_table (PyList lmin) (PyList lmax) = Ok (lo, hi)) :
  length lo = length lmin /\ length hi = length lmax /\
  _ratios2tokens (PyList lmin) = Ok lo /\ _ratios2tokens (PyList lmax) = Ok hi.
Proof.
  unfold _get_range_table in Ht.
  cbn [isinstance_list orb py_assert rbind] in Ht.
  destruct (_ratios2tokens (PyList lmin)) as [a|] eqn:Ea; cbn [rbind] in Ht;
    [|discriminate].
  destruct (_ratios2tokens (PyList lmax)) as [b|] eqn:Eb; cbn [rbind] in Ht;
    [|discriminate].
  inversion Ht; subst.
  unfold _ratios2tokens in Ea, Eb.
  apply comprehension_length in Ea, Eb. auto.
Qed.

Lemma range_table_lengths_witness :
  length [0] = length [PyInt 0] /\
  length [90; 80; 70] = length [PyFloat 0.9; PyFloat 0.8; PyFloat 0.7].
Proof.
  destruct (range_table_lengths [PyInt 0] [PyFloat 0.9; PyFloat 0.8; PyFloat 0.7]
              [0] [90; 80; 70] ltac:(vm_compute; reflexivity))
    as (H1 & H2 & _).
  split; assumption.
Defined.

(** X4: decoding keeps the number of dimensions, and so does encoding the
    decoded ratios again: the vector [reward] reports has as many tokens as
    the vector that was issued. *)
Theorem tokens2ratios_length (tokens : list Z) (ratios : list float)
    (Hd : _tokens2ratios tokens = Ok ratios) :
  length ratios = length tokens /\
  forall tokens', _ratios2tokens (PyList (map PyFloat ratios)) = Ok tokens' ->
                  length tokens' = length tokens.
Proof.
  unfold _tokens2ratios in Hd. apply comprehension_length in Hd.
  split; [exact Hd|]. intros tokens' E. unfold _ratios2tokens in E.
  apply comprehension_length in E. rewrite E, length_map. exact Hd.
Qed.

Lemma tokens2ratios_length_witness :
  length [0.29; 0.3]%float = length [29; 30].
Proof.
  destruct (tokens2ratios_length [29; 30] [Z2F 29 * 0.01; Z2F 30 * 0.01]%float
              ltac:(vm_compute; reflexivity)) as [E _].
  exact E.
Defined.

(** X5: for a finite ratio [v] between 0 and 0.9 the token [t] is, in
    exact arithmetic over the binary64 values, the integral part of
    [v / 0.01] up to the rounding of the division: [(t - 2^-46) * 0.01 <= v
    < (t + 1) * 0.01], with [0 <= t <= 90], inside the default range
    table. *)
Theorem encode_floor_of_exact_quotient (v : float)
    (Hfin : float_finite v = true)
    (Hlo : (0 <= F2Q v)%Q) (Hhi : (F2Q v <= F2Q 0.9)%Q) :
  exists t,
    _ratios2tokens (PyList [PyFloat v]) = Ok [t] /\
    0 <= t <= 90 /\
    ((inject_Z t - (1 # 70368744177664)) * F2Q 0.01 <= F2Q v)%Q /\
    (F2Q v < (inject_Z t + 1) * F2Q 0.01)%Q.
Proof.
  pose proof unit_den_pow as HP.
  assert (HPpos : 0 < 2 ^ 1074) by (apply Z.pow_pos_nonneg; lia).
  assert (Hb : 0 <= scaled v <= scaled 0.9%float).
  { unfold Qle, F2Q in Hlo, Hhi. cbn [Qnum Qden] in Hlo, Hhi.
    rewrite HP in Hhi. split; [lia|].
    apply (Z.mul_le_mono_pos_r _ _ (2 ^ 1074)); assumption. }
  destruct (encode_bracket v Hfin Hb) as (t & Henc & Ht & Hlow & Hup).
  exists t. split; [|split; [exact Ht|]].
  - unfold _ratios2tokens, comprehension, py_truediv.
    change (PrimFloat.eqb 0.01 0) with false. cbv beta iota.
    unfold rbind. rewrite Henc. reflexivity.
  - set (V := scaled v) in *. set (C := scaled 0.01%float) in *.
    unfold Qlt, Qle, Qminus, Qplus, Qmult, Qopp, F2Q, inject_Z.
    cbn [Qnum Qden]. fold V C.
    rewrite !Pos2Z.inj_mul, HP.
    set (P := 2 ^ 1074) in *.
    change (Zpos 70368744177664) with (2 ^ 46).
    change (Zpos 1) with 1.
    split; nia.
Qed.

Lemma encode_floor_of_exact_quotient_witness :
  exists t,
    _ratios2tokens (PyList [PyFloat 0.29]) = Ok [t] /\
    0 <= t <= 90 /\
    ((inject_Z t - (1 # 70368744177664)) * F2Q 0.01 <= F2Q 0.29)%Q /\
    (F2Q 0.29 < (inject_Z t + 1) * F2Q 0.01)%Q.
Proof.
  apply (encode_floor_of_exact_quotient 0.29).
  - vm_compute. reflexivity.
  - unfold Qle. vm_compute. discriminate.
  - unfold Qle. vm_compute. discriminate.
Defined.

Section LoopMore.
Context `{Externals}.

(** [prune], step by step, when the server answers and the answer decodes. *)
Lemma prune_eq (h : heap) (program : Program) t rest ratios :
  replies h = t :: rest ->
  _tokens2ratios t = Ok ratios ->
  prune program h =
  let out := Pruner_prune program (scope h) (_params (self h)) ratios
                          (_place (self h)) false
                          (Some (_param_backup (self h))) in
  (Ok (fst (fst out)),
   {| self := with_param_backup
                (default (_param_backup (self h)) (snd out))
                (with_current_ratios ratios (self h));
      scope := snd (fst out);
      replies := rest;
      trace := trace h ++ [EvNextTokens t] |}).
Proof.
  intros Hrep Hdec.
  unfold prune, _next_ratios, bind, client_next_tokens, lift, get_self,
    set_self, get_scope, set_scope, ret.
  rewrite Hrep. cbn [self scope replies trace]. rewrite Hdec.
  cbn [self scope replies trace with_current_ratios _params _place _param_backup].
  destruct (Pruner_prune program (scope h) (_params (self h)) ratios
                         (_place (self h)) false
                         (Some (_param_backup (self h)))) as [[p sc'] b'].
  reflexivity.
Qed.

Lemma tokens2ratios_error tokens e :
  _tokens2ratios tokens = Raise e -> e = OverflowError.
Proof.
  unfold _tokens2ratios.
  apply (comprehension_error _ (fun e => e = OverflowError)).
  intros z e0. destruct (py_float_of_int z) eqn:Ez; cbn [rbind]; [discriminate|].
  intros E; inversion E; subst. eapply py_float_of_int_error; eauto.
Qed.

(** X8: when the tokens the server answers do not decode, which can only be
    an [OverflowError] (a token too large for a float), [prune] raises it
    with the reply consumed and nothing else changed: the object keeps its
    previous ratios and backup, and the pruner has not touched the scope. *)
Theorem prune_decode_failure (h : heap) (program : Program) t rest e
    (Hrep : replies h = t :: rest)
    (Hdec : _tokens2ratios t = Raise e) :
  e = OverflowError /\
  fst (prune program h) = Raise OverflowError /\
  self (snd (prune program h)) = self h /\
  scope (snd (prune program h)) = scope h /\
  replies (snd (prune program h)) = rest /\
  trace (snd (prune program h)) = trace h ++ [EvNextTokens t].
Proof.
  assert (He := tokens2ratios_error _ _ Hdec). subst e. split; [reflexivity|].
  unfold prune, _next_ratios, bind, client_next_tokens, lift.
  rewrite Hrep. cbn [self scope replies trace]. rewrite Hdec.
  cbn [fst snd self scope replies trace]. auto.
Qed.

Lemma sets_are_not_updates (backup : list (string * Tensor)) (ks : list string) :
  filter (fun ev => is_update ev) (restore_events backup ks) = [].
Proof.
  induction ks as [|k ks IH]; [reflexivity|].
  cbn [restore_events omap list_omap].
  destruct (dict_get backup k); [cbn; exact IH | exact IH].
Qed.

Lemma run_trial_after_prune (h h1 : heap) (program p : Program) (score : float) :
  prune program h = (Ok p, h1) ->
  run_trial program score h = reward score h1.
Proof. intros E. unfold run_trial, bind. rewrite E. reflexivity. Qed.

(** X7: one trial, [prune] then [reward], on an object with an empty backup,
    with a pruner whose backup laid over the scope it leaves gives back the
    scope it received: after the trial the scope is what it was, the backup
    is empty again, the decoded ratios are the current ones, one reply is
    consumed, and the only message sent is the update of the re-encoded
    ratios (none when they do not encode). *)
Theorem trial_restores_scope (h : heap) (program pruned : Program)
    (score : float) t rest ratios (sc' : gmap string Tensor)
    (b : list (string * Tensor))
    (Hfresh : _param_backup (self h) = [])
    (Hrep : replies h = t :: rest)
    (Hdec : _tokens2ratios t = Ok ratios)
    (Hcall : Pruner_prune program (scope h) (_params (self h)) ratios
                          (_place (self h)) false (Some [])
             = (pruned, sc', Some b))
    (Hdom : dom (dict_map b) ⊆ dom sc')
    (Hback : dict_map b ∪ sc' = scope h) :
  let h' := snd (run_trial program score h) in
  scope h' = scope h /\
  _param_backup (self h') = [] /\
  _current_ratios (self h') = Some ratios /\
  replies h' = rest /\
  filter (fun ev => is_update ev) (trace h')
  = filter (fun ev => is_update ev) (trace h)
    ++ match _ratios2tokens (PyList (map PyFloat ratios)) with
       | Ok tokens => [EvUpdate tokens score]
       | Raise _ => []
       end.
Proof.
  intros h'. subst h'.
  set (h1 := {| self := with_param_backup b (with_current_ratios ratios (self h));
                scope := sc'; replies := rest;
                trace := trace h ++ [EvNextTokens t] |}).
  assert (Hp : prune program h = (Ok pruned, h1)).
  { rewrite (prune_eq h program t rest ratios Hrep Hdec).
    rewrite Hfresh, Hcall. reflexivity. }
  rewrite (run_trial_after_prune h h1 program pruned score Hp).
  assert (Hd1 : dom (dict_map (_param_backup (self h1))) ⊆ dom (scope h1))
    by exact Hdom.
  rewrite (reward_eq h1 score Hd1).
  cbn [h1 self scope replies trace with_param_backup with_current_ratios
       _current_ratios _param_backup _iter with_iter].
  assert (Hsets := sets_are_not_updates b (dict_keys b)).
  fold (restore_trace b) in Hsets.
  destruct (_ratios2tokens (PyList (map PyFloat ratios))) as [tokens|e];
    cbn [fst snd self scope replies trace with_param_backup with_current_ratios
         _current_ratios _param_backup _iter with_iter];
    (split; [exact Hback|]; split; [reflexivity|]; split; [reflexivity|];
     split; [reflexivity|]);
    rewrite ?filter_app, Hsets; cbn; rewrite ?app_nil_r; reflexivity.
Qed.


(** The loop of [_restore] stops at the first key the scope lacks. *)
Lemma for_each_restore_missing backup (ks : list string) : forall h,
  (exists k, k ∈ ks /\ k ∉ dom (scope h)) ->
  (forall k, k ∈ ks -> is_Some (dict_get backup k)) ->
  exists done,
    for_each (restore_one backup) ks h =
    (Raise (AttributeError "get_tensor"),
     {| self := self h; scope := restore_keys backup (scope h) done;
        replies := replies h;
        trace := trace h ++ restore_events backup done |}).
Proof.
  induction ks as [|k0 ks IH]; intros h (k & Hin & Hk) Hget.
  - inversion Hin.
  - cbn [for_each]. unfold bind at 1. unfold restore_one at 1.
    unfold bind at 1. unfold get_scope at 1.
    destruct (scope h !! k0) as [old|] eqn:E0.
    + destruct (Hget k0 ltac:(left)) as [v0 Hv0]. rewrite Hv0.
      unfold bind at 1. unfold set_scope at 1. unfold emit at 1.
      cbn [self scope replies trace].
      assert (Hne : k <> k0).
      { intros ->. apply Hk. apply elem_of_dom. eauto. }
      destruct (IH {| self := self h; scope := <[k0:=v0]> (scope h);
                      replies := replies h;
                      trace := trace h ++ [EvSetTensor k0 v0] |})
        as [done Hdone].
      * exists k. split.
        -- apply elem_of_cons in Hin as [Heq | Hin]; [congruence | exact Hin].
        -- cbn [scope]. rewrite dom_insert. apply not_elem_of_union.
           split; [apply not_elem_of_singleton; exact Hne | exact Hk].
      * intros k' Hin'. apply Hget. right. exact Hin'.
      * exists (k0 :: done). rewrite Hdone.
        cbn [self scope replies trace restore_keys restore_events foldl omap
             list_omap].
        rewrite Hv0. rewrite <- app_assoc. reflexivity.
    + exists []. unfold raise. cbn. rewrite app_nil_r. destruct h; reflexivity.
Qed.

(** X6: when the backup names a parameter the scope does not hold,
    [reward] raises [AttributeError] from inside [_restore]: the object is
    unchanged (the backup is not emptied, [_iter] not incremented) and no
    update is sent. *)
Theorem reward_missing_variable (h : heap) (score : float) (name : string)
    (Hb : name ∈ dom (dict_map (_param_backup (self h))))
    (Hs : name ∉ dom (scope h)) :
  fst (reward score h) = Raise (AttributeError "get_tensor") /\
  self (snd (reward score h)) = self h /\
  replies (snd (reward score h)) = replies h /\
  filter (fun ev => is_update ev) (trace (snd (reward score h)))
  = filter (fun ev => is_update ev) (trace h).
Proof.
  apply dict_keys_dom in Hb.
  destruct (for_each_restore_missing (_param_backup (self h))
              (dict_keys (_param_backup (self h))) h) as [done Hdone].
  { exists name. split; [exact Hb | exact Hs]. }
  { intros k Hin. apply dict_get_keys. exact Hin. }
  assert (E : reward score h =
              (Raise (AttributeError "get_tensor"),
               {| self := self h;
                  scope := restore_keys (_param_backup (self h)) (scope h) done;
                  replies := replies h;
                  trace := trace h
                           ++ restore_events (_param_backup (self h)) done |})).
  { unfold reward. unfold bind at 1. unfold _restore. unfold bind at 1.
    unfold get_self at 1. rewrite Hdone. reflexivity. }
  rewrite E. cbn [fst snd self replies trace].
  split; [reflexivity|]. split; [reflexivity|]. split; [reflexivity|].
  rewrite filter_app.
  rewrite sets_are_not_updates, app_nil_r. reflexivity.
Qed.

(** X14: a second [reward] without a [prune] in between succeeds when the
    first did, writes no tensor, and sends the same token vector again with
    the new score; [_iter] has been incremented twice. *)
Theorem reward_twice_reports_twice (h : heap) (s1 s2 : float)
    (Hdom : dom (dict_map (_param_backup (self h))) ⊆ dom (scope h))
    (Hok : fst (reward s1 h) = Ok tt) :
  let h1 := snd (reward s1 h) in
  let h2 := snd (reward s2 h1) in
  exists tokens,
    fst (reward s2 h1) = Ok tt /\
    scope h2 = scope h1 /\
    trace h2 = trace h1 ++ [EvUpdate tokens s2] /\
    (exists before, trace h1 = before ++ [EvUpdate tokens s1]) /\
    _iter (self h2) = _iter (self h) + 2.
Proof.
  intros h1 h2. subst h2 h1. revert Hok.
  rewrite (reward_eq h s1 Hdom).
  destruct (_current_ratios (self h)) as [ratios|] eqn:Ecur; [|discriminate].
  destruct (_ratios2tokens (PyList (map PyFloat ratios))) as [tokens|] eqn:Eenc;
    [|discriminate].
  intros _. cbn [fst snd].
  set (h1 := {| self := _; scope := _; replies := _; trace := _ |}).
  assert (Hd1 : dom (dict_map (_param_backup (self h1))) ⊆ dom (scope h1)).
  { cbn. unfold dict_map. cbn. rewrite dom_empty. apply empty_subseteq. }
  rewrite (reward_eq h1 s2 Hd1).
  cbn [h1 self scope replies trace with_param_backup with_iter _current_ratios
       _param_backup _iter].
  rewrite Ecur, Eenc. cbn [fst snd self scope replies trace with_iter _iter
                           with_param_backup].
  exists tokens. unfold restore_trace, dict_map.
  cbn [dict_keys map restore_events omap list_omap list_to_map foldr].
  rewrite (left_id_L ∅ (∪)), !app_nil_r.
  split; [reflexivity|]. split; [reflexivity|]. split; [reflexivity|].
  split; [eexists; reflexivity|]. lia.
Qed.

(** X10: whatever it returns or raises, [_constrain_func] leaves the
    attributes of the object as they were, consumes no reply of the server
    and adds nothing to the trace: it never reports to the controller. *)
Theorem constrain_func_is_silent (h : heap) (tokens : list Z) :
  self (snd (_constrain_func tokens h)) = self h /\
  replies (snd (_constrain_func tokens h)) = replies h /\
  trace (snd (_constrain_func tokens h)) = trace h.
Proof.
  unfold _constrain_func, bind, lift, get_self, get_scope, set_scope, ret, raise.
  destruct (_tokens2ratios tokens) as [ratios|]; [|auto].
  destruct (Pruner_prune (_program (self h)) (scope h) (_params (self h))
                         ratios (_place (self h)) true None) as [[p sc'] b'].
  cbn [self scope replies trace].
  destruct (_base_flops (self h)); [|auto].
  destruct (py_rsub_one (_pruned_flops (self h))) as [rest|]; [|auto].
  destruct (py_mul_int z rest) as [target|]; [|auto].
  auto.
Qed.

End LoopMore.

Section ConstructorMore.
Context `{Externals}.

(** X12: the constructor returns an object exactly when the range table is
    built, [pruned_latency] is false, [init_ratios] is not [None] and the
    initial ratios encode. *)
Theorem init_succeeds_iff (a : init_args) :
  (exists obj, __init__ a = Ok obj) <->
  (exists table tokens,
     _get_range_table (a_min_ratios a) (a_max_ratios a) = Ok table /\
     py_truthy (a_pruned_latency a) = false /\
     a_init_ratios a <> PyNone /\
     _ratios2tokens (a_init_ratios a) = Ok tokens).
Proof.
  unfold __init__.
  destruct (_get_range_table (a_min_ratios a) (a_max_ratios a)) as [table|e];
    cbn [rbind].
  2: { split; [intros [? E]; discriminate E | intros (? & ? & E & _); discriminate E]. }
  destruct (py_truthy (a_pruned_latency a)); cbn [rbind].
  { split; [intros [? E]; discriminate E | intros (? & ? & _ & E & _); discriminate E]. }
  destruct (a_init_ratios a) as [| z | f | s | l] eqn:Er; cbn [rbind].
  { split; [intros [? E]; discriminate E | intros (? & ? & _ & _ & E & _); congruence]. }
  all: match goal with
       | |- context [_ratios2tokens ?r] =>
           destruct (_ratios2tokens r) as [tokens|e] eqn:Et; cbn [rbind]
       end.
  all: try (split; [intros [? E]; discriminate E
                   | intros (? & ? & _ & _ & _ & E); discriminate E]).
  all: destruct (a_server_addr a) as [ip port];
       (split; [intros _; exists table, tokens; repeat split; congruence
               | intros _; eexists; reflexivity]).
Qed.

(** The fields of the object the constructor returns. *)
Lemma init_object_fields (a : init_args) (obj : AutoPruner)
    (Hinit : __init__ a = Ok obj) :
  _iter obj = 0 /\
  _param_backup obj = [] /\
  _current_ratios obj = None /\
  _get_range_table (a_min_ratios a) (a_max_ratios a) = Ok (_range_table obj) /\
  _ratios2tokens (a_init_ratios a)
  = Ok (sa_init_tokens (cs_controller (_controller_server obj))) /\
  sa_range_table (cs_controller (_controller_server obj)) = _range_table obj /\
  _base_flops obj
  = (if py_truthy (a_pruned_flops a) then Some (flops (a_program a)) else None) /\
  cs_started (_controller_server obj) = a_is_server a /\
  cc_server (_controller_client obj) = _controller_server obj.
Proof.
  unfold __init__ in Hinit.
  destruct (_get_range_table (a_min_ratios a) (a_max_ratios a)) as [table|e];
    cbn [rbind] in Hinit; [|discriminate].
  destruct (py_truthy (a_pruned_latency a)); cbn [rbind] in Hinit; [discriminate|].
  destruct (a_init_ratios a) as [| z | f | s | l] eqn:Er; cbn [rbind] in Hinit;
    [discriminate| | | |].
  all: match type of Hinit with
       | context [_ratios2tokens ?r] =>
           destruct (_ratios2tokens r) as [tokens|e] eqn:Et; cbn [rbind] in Hinit;
           [|discriminate]
       end.
  all: destruct (a_server_addr a) as [ip port]; inversion Hinit; subst obj;
       cbn; repeat split; reflexivity.
Qed.

(** X13: a constructed object starts with [_iter = 0], an empty backup and
    no current ratios; it holds the range table of the bounds, gives the
    controller that table and the encoded initial ratios, has [_base_flops]
    exactly when [pruned_flops] is true, starts the server exactly when
    [is_server], and its client talks to its own server. *)
Theorem init_postconditions (a : init_args) (obj : AutoPruner)
    (Hinit : __init__ a = Ok obj) :
  _iter obj = 0 /\
  _param_backup obj = [] /\
  _current_ratios obj = None /\
  _get_range_table (a_min_ratios a) (a_max_ratios a) = Ok (_range_table obj) /\
  _ratios2tokens (a_init_ratios a)
  = Ok (sa_init_tokens (cs_controller (_controller_server obj))) /\
  sa_range_table (cs_controller (_controller_server obj)) = _range_table obj /\
  _base_flops obj
  = (if py_truthy (a_pruned_flops a) then Some (flops (a_program a)) else None) /\
  cs_started (_controller_server obj) = a_is_server a /\
  cc_server (_controller_client obj) = _controller_server obj.
Proof. exact (init_object_fields a obj Hinit). Qed.

(** X9: an object constructed with a false [pruned_flops] (0.0, 0, [None])
    has no [_base_flops]: its [_constrain_func] raises [AttributeError] on
    every token vector that decodes. *)
Theorem constrain_func_without_base_flops (a : init_args) (obj : AutoPruner)
    (sc : gmap string Tensor) (answers : list (list Z))
    (tokens : list Z) (ratios : list float)
    (Hinit : __init__ a = Ok obj)
    (Hpf : py_truthy (a_pruned_flops a) = false)
    (Hdec : _tokens2ratios tokens = Ok ratios) :
  fst (_constrain_func tokens (fresh_heap obj sc answers))
  = Raise (AttributeError "_base_flops").
Proof.
  destruct (init_object_fields a obj Hinit) as (_ & _ & _ & _ & _ & _ & Hb & _).
  rewrite Hpf in Hb.
  unfold _constrain_func, bind, lift, get_self, get_scope, set_scope, ret, raise.
  rewrite Hdec. cbn [fresh_heap self scope replies trace].
  destruct (Pruner_prune (_program obj) sc (_params obj) ratios (_place obj)
                         true None) as [[p sc'] b'].
  cbn [self]. rewrite Hb. reflexivity.
Qed.

(** X15: on a newly constructed object, [reward] before any [prune] raises
    [AttributeError] for [_current_ratios] and changes nothing: no tensor
    is written, no update is sent, [_iter] stays 0. *)
Theorem reward_before_prune (a : init_args) (obj : AutoPruner)
    (sc : gmap string Tensor) (answers : list (list Z)) (score : float)
    (Hinit : __init__ a = Ok obj) :
  reward score (fresh_heap obj sc answers)
  = (Raise (AttributeError "_current_ratios"), fresh_heap obj sc answers).
Proof.
  destruct (init_object_fields a obj Hinit) as (_ & Hb & Hc & _).
  assert (Hd : dom (dict_map (_param_backup (self (fresh_heap obj sc answers))))
               ⊆ dom (scope (fresh_heap obj sc answers))).
  { cbn. rewrite Hb. unfold dict_map. cbn. rewrite dom_empty.
    apply empty_subseteq. }
  rewrite (reward_eq _ score Hd).
  cbn [fresh_heap self scope replies trace]. rewrite Hc, Hb.
  unfold restore_trace, dict_map.
  cbn [dict_keys map restore_events omap list_omap list_to_map foldr].
  rewrite (left_id_L ∅ (∪)), app_nil_r.
  f_equal. unfold fresh_heap. f_equal.
  destruct obj; cbn in *; subst; reflexivity.
Qed.

(** X11: constructed with the three required arguments only, every other
    one at its default ([init_ratios=None]), the constructor raises
    [NameError] for [_program], whatever the program, scope and place. *)
Theorem default_construction_fails (program : Program)
    (sc : gmap string Tensor) (place : Place) :
  __init__ (default_args program sc place) = Raise (NameError "_program").
Proof.
  unfold __init__, default_args.
  cbn [a_min_ratios a_max_ratios a_pruned_flops a_pruned_latency a_init_ratios
       a_program].
  change (_get_range_table (PyList [PyInt 0]) (PyList [PyFloat 0.9]))
    with (@Ok (list Z * list Z) ([0], [90])).
  reflexivity.
Qed.

End ConstructorMore.

Lemma reward_missing_variable_witness :
  fst (reward 0.75 demo_broken_trial) = Raise (AttributeError "get_tensor") /\
  self (snd (reward 0.75 demo_broken_trial)) = self demo_broken_trial.
Proof.
  destruct (reward_missing_variable demo_broken_trial 0.75 "conv2_weights"%string
              ltac:(apply (bool_decide_unpack _); vm_compute; reflexivity)
              ltac:(apply (bool_decide_unpack _); vm_compute; reflexivity))
    as (E & Hs & _).
  split; assumption.
Defined.

Lemma trial_restores_scope_witness :
  scope (snd (run_trial 1000 0.75 (demo_heap [[29; 30]]))) = demo_scope /\
  filter (fun ev => is_update ev)
         (trace (snd (run_trial 1000 0.75 (demo_heap [[29; 30]]))))
  = [EvUpdate [28; 30] 0.75].
Proof.
  pose proof (trial_restores_scope (demo_heap [[29; 30]]) 1000 504 0.75
                [29; 30] [] [Z2F 29 * 0.01; Z2F 30 * 0.01]%float
                (<["conv1_weights"%string := 0]>
                   (<["conv2_weights"%string := 0]> demo_scope))
                [("conv1_weights"%string, 11); ("conv2_weights"%string, 22)]
                eq_refl eq_refl
                ltac:(vm_compute; reflexivity)
                ltac:(reflexivity)
                ltac:(apply (bool_decide_unpack _); vm_compute; reflexivity)
                ltac:(reflexivity)) as W.
  cbv zeta in W. destruct W as (Hsc & _ & _ & _ & Htr).
  split; [exact Hsc|]. rewrite Htr. reflexivity.
Defined.

Lemma prune_decode_failure_witness :
  fst (prune 1000 (demo_heap [[2 ^ 1024]])) = Raise OverflowError /\
  scope (snd (prune 1000 (demo_heap [[2 ^ 1024]]))) = demo_scope.
Proof.
  destruct (prune_decode_failure (demo_heap [[2 ^ 1024]]) 1000 [2 ^ 1024] []
              OverflowError eq_refl ltac:(vm_compute; reflexivity))
    as (_ & E & _ & Hsc & _).
  split; assumption.
Defined.

Lemma reward_twice_reports_twice_witness :
  exists tokens,
    fst (reward 0.5 (snd (reward 0.75 demo_mid_trial))) = Ok tt /\
    trace (snd (reward 0.5 (snd (reward 0.75 demo_mid_trial))))
    = trace (snd (reward 0.75 demo_mid_trial)) ++ [EvUpdate tokens 0.5].
Proof.
  pose proof (reward_twice_reports_twice demo_mid_trial 0.75 0.5
                ltac:(apply (bool_decide_unpack _); vm_compute; reflexivity)
                ltac:(vm_compute; reflexivity)) as W.
  cbv zeta in W. destruct W as (tokens & E & _ & Htr & _).
  exists tokens. split; assumption.
Defined.

Lemma init_postconditions_witness :
  _iter demo_object = 0 /\ _base_flops demo_object = Some 1000.
Proof.
  destruct (init_postconditions demo_args demo_object eq_refl)
    as (Hi & _ & _ & _ & _ & _ & Hb & _).
  split; [exact Hi | exact Hb].
Defined.

Lemma constrain_func_without_base_flops_witness :
  fst (_constrain_func [50; 0]
         (fresh_heap demo_object_no_flops demo_scope []))
  = Raise (AttributeError "_base_flops").
Proof.
  apply (constrain_func_without_base_flops
           (with_pruned_flops (PyFloat 0) demo_args) demo_object_no_flops
           demo_scope [] [50; 0] [Z2F 50 * 0.01; Z2F 0 * 0.01]%float);
    reflexivity.
Defined.

Lemma reward_before_prune_witness :
  fst (reward 0.75 (demo_heap [[29; 30]]))
  = Raise (AttributeError "_current_ratios").
Proof.
  unfold demo_heap.
  rewrite (reward_before_prune demo_args demo_object demo_scope [[29; 30]] 0.75
             eq_refl).
  reflexivity.
Defined.

